(** * DICOM-CBCT-stats: header extraction, vendor corrections, de-duplication
      and tabular export ([scripts/DICOM-CBCT-stats.py]).

    The script walks a directory, reads every DICOM header, drops derived
    images, corrects two vendor quirks (Morita: dose hidden in the image
    comments; Planmeca: missing slice count, dose in 1/100 units), keeps one
    header per Series Instance UID and writes selected fields to a
    semicolon-delimited table.

    The development follows the script function by function.  Python
    exceptions are values of an error monad; the insertion-ordered dictionary
    of headers is an association list; the attribute store of a header is a
    finite map; IEEE doubles are [spec_float] at precision 53. *)

From Stdlib Require Import ZArith NArith Ascii Bool Lia.
From Stdlib Require Import Floats.SpecFloat.
From stdpp Require Import base option list strings gmap.

Local Open Scope Z_scope.

(* String concatenation computes on its first argument. *)
#[local] Arguments String.append !_ _ : simpl nomatch.

(** ** Exceptions *)

Inductive exn :=
| TypeError
| AttributeError
| OverflowError
| ValueError
| InvalidDicomError
| OSError.

Inductive result (A : Type) :=
| Ok (a : A)
| Raise (e : exn).
Arguments Ok {A} a.
Arguments Raise {A} e.

#[global] Instance result_ret : MRet result := λ A a, Ok a.
#[global] Instance result_bind : MBind result := λ A B k m,
  match m with
  | Ok a => k a
  | Raise e => Raise e
  end.

(** ** Strings

    A Python [str] is modelled as a sequence of 8-bit code points.  In that
    range the only characters of class [\d] are ['0'..'9'], and
    [str.isspace] holds of the twelve code points listed in [is_space]. *)

Module Str.

Definition is_digit (c : ascii) : bool :=
  let n := N_of_ascii c in ((48 <=? n) && (n <=? 57))%N.

Definition is_space (c : ascii) : bool :=
  let n := N_of_ascii c in
  (((9 <=? n) && (n <=? 13)) || ((28 <=? n) && (n <=? 32))
   || (n =? 133) || (n =? 160))%N.

Definition is_empty (s : string) : bool :=
  match s with EmptyString => true | String _ _ => false end.

(** [startswith p s]: [s] begins with the literal [p]; the rest is returned. *)
Fixpoint strip_prefix (p s : string) : option string :=
  match p with
  | EmptyString => Some s
  | String a p' =>
      match s with
      | String b s' => if Ascii.eqb a b then strip_prefix p' s' else None
      | EmptyString => None
      end
  end.

(** [needle in s] for two strings: substring search. *)
Fixpoint contains (needle s : string) : bool :=
  match strip_prefix needle s with
  | Some _ => true
  | None =>
      match s with
      | EmptyString => false
      | String _ s' => contains needle s'
      end
  end.

(** [s.lstrip()], [s.rstrip()], [s.strip()] with no argument. *)
Fixpoint lstrip (s : string) : string :=
  match s with
  | String c s' => if is_space c then lstrip s' else s
  | EmptyString => EmptyString
  end.

Fixpoint rstrip (s : string) : string :=
  match s with
  | String c s' =>
      let r := rstrip s' in
      if is_space c && is_empty r then EmptyString else String c r
  | EmptyString => EmptyString
  end.

Definition strip (s : string) : string := rstrip (lstrip s).

(** [s.replace(a, b)] for one-character [a] and [b]. *)
Fixpoint replace (a b : ascii) (s : string) : string :=
  match s with
  | String c s' => String (if Ascii.eqb c a then b else c) (replace a b s')
  | EmptyString => EmptyString
  end.

Fixpoint count (a : ascii) (s : string) : nat :=
  match s with
  | String c s' => (if Ascii.eqb c a then 1 else 0) + count a s'
  | EmptyString => 0
  end.

(** The longest run of digits at the start of [s], and what follows it:
    the greedy [\d*]. *)
Fixpoint span_digits (s : string) : string * string :=
  match s with
  | String c r =>
      if is_digit c
      then let '(d, t) := span_digits r in (String c d, t)
      else (EmptyString, s)
  | EmptyString => (EmptyString, EmptyString)
  end.

Fixpoint all_digits (s : string) : bool :=
  match s with
  | String c r => is_digit c && all_digits r
  | EmptyString => true
  end.

(** The decimal value of a digit string. *)
Definition digit_val (c : ascii) : Z := Z.of_N (N_of_ascii c) - 48.

Fixpoint decimal_acc (acc : Z) (s : string) : Z :=
  match s with
  | String c r => decimal_acc (10 * acc + digit_val c) r
  | EmptyString => acc
  end.

Definition decimal (s : string) : Z := decimal_acc 0 s.

End Str.

(** ** Regular expressions

    A compiled pattern is modelled by its anchored matcher: given the text
    from some position on, the matched text ([group(0)]) if the pattern
    matches there.  [search] tries every position from left to right, the
    end of the text included, as [re.search] does. *)

Module Re.

Definition pattern := string → option string.

Fixpoint search (p : pattern) (s : string) : option string :=
  match p s with
  | Some g => Some g
  | None =>
      match s with
      | EmptyString => None
      | String _ r => search p r
      end
  end.

(** ["DAP:(\d+mGycm2)"].  [\d+] is greedy; giving digits back never helps,
    because the character after a shorter run is a digit, not ['m']. *)
Definition dap : pattern := λ s,
  r ← Str.strip_prefix "DAP:" s;
  let '(d, t) := Str.span_digits r in
  if Str.is_empty d then None
  else _ ← Str.strip_prefix "mGycm2" t; Some ("DAP:" +:+ d +:+ "mGycm2").

(** [\d*\.\d+]: all leading digits, a dot, all following digits (one at
    least).  Backtracking into [\d*] cannot produce a dot. *)
Definition decimal_point : pattern := λ s,
  let '(i, t) := Str.span_digits s in
  match t with
  | String c u =>
      if Ascii.eqb c "." then
        let '(f, _) := Str.span_digits u in
        if Str.is_empty f then None else Some (i +:+ "." +:+ f)
      else None
  | EmptyString => None
  end.

Definition is_sign (c : ascii) : bool :=
  Ascii.eqb c "-" || Ascii.eqb c "+".

(** [[-+]?\d*\.\d+]: the sign is tried first, then skipped. *)
Definition signed_decimal : pattern := λ s,
  match s with
  | String c r =>
      if is_sign c then
        match decimal_point r with
        | Some g => Some (String c g)
        | None => decimal_point s
        end
      else decimal_point s
  | EmptyString => decimal_point s
  end.

(** [\d+] *)
Definition digits : pattern := λ s,
  let '(d, _) := Str.span_digits s in
  if Str.is_empty d then None else Some d.

(** [r"[-+]?\d*\.\d+|\d+"]: the left alternative is tried first. *)
Definition number : pattern := λ s,
  match signed_decimal s with
  | Some g => Some g
  | None => digits s
  end.

End Re.


(** ** Numbers

    A Python [float] is an IEEE 754 binary64 value; [int] is unbounded. *)

Module Num.

Definition float := spec_float.

Definition prec : Z := 53.
Definition emax : Z := 1024.

(** The double nearest to an integer (ties to even). *)
Definition of_Z (n : Z) : float := binary_normalize prec emax n 0 false.

(** The double nearest to [m / d], for [0 <= m] and [0 < d]. *)
Definition of_ratio (neg : bool) (m d : Z) : float :=
  match m with
  | Z0 => S754_zero neg
  | _ =>
      let '(q, e, l) := SFdiv_core_binary prec emax m 0 d 0 in
      binary_round_aux prec emax neg q e l
  end.

Definition mul (x y : float) : float := SFmul prec emax x y.

Inductive number :=
| NInt (n : Z)
| NFloat (x : float).

(** [float(x)] for a number: the identity on a float; an [int] is rounded
    to nearest, and one too large for a double raises [OverflowError]. *)
Definition float_of_number (x : number) : result float :=
  match x with
  | NFloat f => Ok f
  | NInt n =>
      match of_Z n with
      | S754_infinity _ => Raise OverflowError
      | f => Ok f
      end
  end.

(** [float(s)] for a string, on the numerals the pattern [Re.number] can
    produce: an optional sign, digits, and optionally a dot followed by at
    least one digit.  The value is rounded to nearest; too large a numeral
    gives an infinity.  (Python's [float] reads more forms than these, with
    exponents, blanks or names of special values; none of them reaches the
    call in [process_directory]: what [extract_value_from_comments] returns
    is always read, see [extract_numeral].) *)
Definition unsigned_numeral (neg : bool) (s : string) : result float :=
  let '(i, t) := Str.span_digits s in
  match t with
  | EmptyString =>
      if Str.is_empty i then Raise ValueError
      else Ok (if neg then SFopp (of_Z (Str.decimal i)) else of_Z (Str.decimal i))
  | String c u =>
      if Ascii.eqb c "." then
        let '(f, rest) := Str.span_digits u in
        if Str.is_empty f || negb (Str.is_empty rest) then Raise ValueError
        else Ok (of_ratio neg (Str.decimal (i +:+ f)) (10 ^ Z.of_nat (String.length f)))
      else Raise ValueError
  end.

Definition float_of_string (s : string) : result float :=
  match s with
  | String c r =>
      if Ascii.eqb c "-" then unsigned_numeral true r
      else if Ascii.eqb c "+" then unsigned_numeral false r
      else unsigned_numeral false s
  | EmptyString => Raise ValueError
  end.

(** [float(x)] where [x] is a string or [None]. *)
Definition float_of_optional_string (x : option string) : result float :=
  match x with
  | Some s => float_of_string s
  | None => Raise TypeError
  end.

End Num.


(** ** Headers

    A header (pydicom [Dataset]) maps attribute keywords to values.  pydicom
    fixes the Python type of an element by its value representation: the
    Series Instance UID (UI) is a string and the dose-area product (FL) is a
    number, so these two are typed fields; every other attribute is an entry
    of [attrs], whose value may be a string, a number, a multi-valued element
    or [None].  An element that is present with no value is the empty string
    for a text representation and [None] for a numeric one; an attribute
    that is absent has no entry ([None] in the option). *)

Inductive value :=
| VStr (s : string)
| VNum (n : Num.number)
| VMulti (l : list string)
| VNone.

(** The value of a numeric element: [None] when the element has no value. *)
Inductive numeric :=
| NoValue
| Value (n : Num.number).

Definition value_of_numeric (d : numeric) : value :=
  match d with
  | NoValue => VNone
  | Value n => VNum n
  end.

(** [float(d)] for the value of a numeric element: [float(None)] raises
    [TypeError]. *)
Definition float_of_numeric (d : numeric) : result Num.float :=
  match d with
  | NoValue => Raise TypeError
  | Value n => Num.float_of_number n
  end.

Record Dataset := mkDataset {
  SeriesInstanceUID : option string;
  AcquiredImageAreaDoseProduct : option numeric;
  attrs : gmap string value;
}.

(** [getattr(dicom, name, None)] *)
Definition getattr (dicom : Dataset) (name : string) : option value :=
  if String.eqb name "SeriesInstanceUID" then VStr <$> SeriesInstanceUID dicom
  else if String.eqb name "AcquiredImageAreaDoseProduct"
       then value_of_numeric <$> AcquiredImageAreaDoseProduct dicom
  else attrs dicom !! name.

(** [dicom.AcquiredImageAreaDoseProduct = x] for a float [x] *)
Definition set_dose (dicom : Dataset) (x : Num.float) : Dataset :=
  mkDataset (SeriesInstanceUID dicom) (Some (Value (Num.NFloat x)))
            (attrs dicom).

(** [dicom.ImagesInAcquisition = n] for an int [n] *)
Definition set_images (dicom : Dataset) (n : Z) : Dataset :=
  mkDataset (SeriesInstanceUID dicom) (AcquiredImageAreaDoseProduct dicom)
            (<["ImagesInAcquisition" := VNum (Num.NInt n)]> (attrs dicom)).

(** [needle in v], where [v] is the value of an attribute or [None]: a
    substring test on a string, an element test on a multi-valued element,
    [TypeError] on what is not iterable. *)
Definition py_in (needle : string) (v : option value) : result bool :=
  match v with
  | Some (VStr s) => Ok (Str.contains needle s)
  | Some (VMulti l) => Ok (existsb (String.eqb needle) l)
  | Some (VNum _) => Raise TypeError
  | Some VNone => Raise TypeError
  | None => Raise TypeError
  end.

(** [v.strip()]: only a string has the method. *)
Definition py_strip (v : option value) : result string :=
  match v with
  | Some (VStr s) => Ok (Str.strip s)
  | _ => Raise AttributeError
  end.

(** ** The file system

    A directory holds the entries [os.walk] lists as files, and the
    sub-directories it descends into (links to directories are not followed
    and are left out).  A file knows what [os.path.isfile] says of it and
    what [pydicom.dcmread(path, stop_before_pixels=True)] gives:
    a header, [InvalidDicomError] for a file that is not DICOM, or another
    exception. *)

Record file := mkFile {
  fname : string;
  isfile : bool;
  dcmread : result Dataset;
}.

#[warnings="-register-all"]
Inductive dir :=
| Dir (files : list file) (subdirs : list dir).

Definition dir_files (d : dir) : list file :=
  match d with Dir fs _ => fs end.

(** [os.walk(top)], top-down: each directory visited stands for the triple
    [(root, dirs, files)]. *)
Fixpoint walk (top : dir) : list dir :=
  match top with
  | Dir _ ds => top :: flat_map walk ds
  end.

(** ** The script *)

(** [is_dicom_file] (lines 39-45) *)
Definition is_dicom_file (f : file) : result bool :=
  match dcmread f with
  | Ok _ => Ok true
  | Raise InvalidDicomError => Ok false
  | Raise e => Raise e
  end.

(** [count_files] (lines 111-131); [None] is a path that does not exist. *)
Definition count_files (file_path : option dir) : nat :=
  match file_path with
  | None => 0%nat
  | Some d =>
      fold_left
        (λ file_count root,
           fold_left
             (λ file_count f, if isfile f then S file_count else file_count)
             (dir_files root) file_count)
        (walk d) 0%nat
  end.

(** [extract_value_from_comments] (lines 94-109).  [re.search] on [None]
    raises [TypeError]; [match.group(0)] on a failed match raises
    [AttributeError]. *)
Definition extract_value_from_comments
    (comments : option value) (pattern : Re.pattern) : result (option string) :=
  match comments with
  | Some (VStr c) =>
      match Re.search pattern c with
      | None => Raise AttributeError
      | Some group0 =>
          match Re.search Re.number group0 with
          | Some g => Ok (Some g)
          | None => Ok None
          end
      end
  | _ => Raise TypeError
  end.

(** [clean_value] (lines 80-92) *)
Definition clean_value (v : value) : value :=
  match v with
  | VStr s =>
      VStr (Str.replace "," ";" (Str.replace "013" " " (Str.replace "010" " " s)))
  | _ => v
  end.

(** The dictionary [dicom_headers]: Series Instance UID to header, in
    insertion order. *)
Abbreviation headers := (list (string * Dataset)).

Definition has_key (uid : string) (h : headers) : bool :=
  existsb (λ kv, String.eqb uid kv.1) h.

(** The vendor dispatch of [process_directory] (lines 68-73) for a header
    found in directory [root]. *)
Definition vendor_correction (root : dir) (dicom : Dataset) : result Dataset :=
  m ← py_strip (getattr dicom "Manufacturer");
  if Str.contains "Morita" m then
    DAP_dose ← extract_value_from_comments (getattr dicom "ImageComments") Re.dap;
    x ← Num.float_of_optional_string DAP_dose;
    mret (set_dose dicom x)
  else
    m' ← py_strip (getattr dicom "Manufacturer");
    if Str.contains "Planmeca" m' then
      let dicom := set_images dicom (Z.of_nat (count_files (Some root))) in
      match AcquiredImageAreaDoseProduct dicom with
      | None => Raise AttributeError
      | Some d =>
          x ← float_of_numeric d;
          mret (set_dose dicom (Num.mul x (Num.of_Z 100)))
      end
    else mret dicom.

(** [process_directory], the body of the inner loop (lines 61-75). *)
Definition process_file (root : dir) (dicom_headers : headers) (f : file)
  : result headers :=
  ok ← is_dicom_file f;
  if ok : bool then
    dicom ← dcmread f;
    derived ← py_in "DERIVED" (getattr dicom "ImageType");
    if derived : bool then mret dicom_headers
    else
      match SeriesInstanceUID dicom with
      | Some series_instance_uid =>
          if negb (Str.is_empty series_instance_uid)
             && negb (has_key series_instance_uid dicom_headers)
          then
            dicom ← vendor_correction root dicom;
            mret (dicom_headers ++ [(series_instance_uid, dicom)])
          else mret dicom_headers
      | None => mret dicom_headers
      end
  else mret dicom_headers.

(** A loop whose body may raise. *)
Fixpoint foldM {S A} (body : S → A → result S) (s : S) (l : list A) : result S :=
  match l with
  | [] => Ok s
  | a :: l' => s' ← body s a; foldM body s' l'
  end.

(** [process_directory] (lines 48-78) *)
Definition process_directory (directory_path : dir) : result headers :=
  foldM (λ dicom_headers root,
           foldM (process_file root) dicom_headers (dir_files root))
        [] (walk directory_path).

(** [dicom_headers_to_csv] (lines 133-153): the header row and the data rows
    handed to the writer, one per entry of the dictionary, in its order.
    How [csv.DictWriter] renders a cell as text (the quoting included) is the
    library's business and is not modelled. *)
Record table := mkTable {
  header_row : list string;
  data_rows : list (list value);
}.

Definition row_of (select : list string) (dicom : Dataset) : list value :=
  map (λ field, clean_value (default (VStr "") (getattr dicom field))) select.

Definition dicom_headers_to_csv (dicom_headers : headers) (select : list string)
  : table :=
  mkTable select (map (λ kv, row_of select kv.2) dicom_headers).

(** * Vocabulary of the specification *)

(** The text [DAP:<digits>mGycm2]. *)
Definition dap_token (ds : string) : string := "DAP:" +:+ ds +:+ "mGycm2".

(** [s] begins with a dose token whose digits are [ds]. *)
Definition dap_at (s ds : string) : Prop :=
  ∃ rest, s = dap_token ds +:+ rest ∧ Str.all_digits ds = true ∧ ds ≠ "".

(** [s] contains a dose token with digits [ds]. *)
Definition dap_in (s ds : string) : Prop :=
  ∃ pre post,
    s = pre +:+ dap_token ds +:+ post ∧ Str.all_digits ds = true ∧ ds ≠ "".

(** The first dose token of [s] has digits [ds]. *)
Inductive first_dap : string → string → Prop :=
| first_dap_here s ds :
    dap_at s ds → first_dap s ds
| first_dap_later c s ds :
    (∀ ds', ¬ dap_at (String c s) ds') →
    first_dap s ds → first_dap (String c s) ds.

(** The regular files below a directory, counted recursively. *)
Fixpoint regular_files (d : dir) : nat :=
  match d with
  | Dir fs ds =>
      (length (List.filter isfile fs) + sum_list (map regular_files ds))%nat
  end.

(** The files in the order the two loops of [process_directory] meet them,
    each with the directory it lies in. *)
Definition traversal (top : dir) : list (dir * file) :=
  flat_map (λ root, map (pair root) (dir_files root)) (walk top).

(** The loops of [process_directory] run over a sequence of files, from a
    given dictionary. *)
Definition run (h : headers) (l : list (dir * file)) : result headers :=
  foldM (λ h rf, process_file rf.1 h rf.2) h l.

(** A file holds a record for [uid] that qualifies: it parses, it is not
    derived, and its Series Instance UID is [uid]. *)
Definition qualifies (uid : string) (f : file) : option Dataset :=
  match dcmread f with
  | Ok dicom =>
      match py_in "DERIVED" (getattr dicom "ImageType") with
      | Ok false =>
          if decide (SeriesInstanceUID dicom = Some uid) then Some dicom
          else None
      | _ => None
      end
  | Raise _ => None
  end.

(** The first qualifying record for [uid] of a sequence of files. *)
Fixpoint first_record (uid : string) (l : list (dir * file))
  : option (dir * Dataset) :=
  match l with
  | [] => None
  | (root, f) :: l' =>
      match qualifies uid f with
      | Some dicom => Some (root, dicom)
      | None => first_record uid l'
      end
  end.

(** The image type holds the token [DERIVED]. *)
Definition derived (dicom : Dataset) : Prop :=
  ∃ tokens, getattr dicom "ImageType" = Some (VMulti tokens)
            ∧ "DERIVED" ∈ tokens.

(** A text that does not begin with a digit. *)
Definition starts_nondigit (t : string) : Prop :=
  match t with
  | String c _ => Str.is_digit c = false
  | EmptyString => True
  end.

(** What [process_file] does with a record that is not derived
    (lines 66-75). *)
Definition accept (dicom_headers : headers) (root : dir) (dicom : Dataset)
  : result headers :=
  match SeriesInstanceUID dicom with
  | Some uid =>
      if negb (Str.is_empty uid) && negb (has_key uid dicom_headers)
      then vendor_correction root dicom
           ≫= λ dicom', Ok (dicom_headers ++ [(uid, dicom')])
      else Ok dicom_headers
  | None => Ok dicom_headers
  end.

(** * Example inputs *)

Definition header (uid : option string) (dose : option Num.number)
    (l : list (string * value)) : Dataset :=
  mkDataset uid (Value <$> dose) (list_to_map l).

Definition original : value := VMulti ["ORIGINAL"; "PRIMARY"; "AXIAL"].

Definition morita_header : Dataset :=
  header (Some "1.2.392.200036.1") None
    [("ImageType", original);
     ("Manufacturer", VStr "Morita Accuitomo 170");
     ("ImageComments", VStr "FOV 60x60 DAP:123mGycm2 rot 360")].

Definition morita_copy : Dataset :=
  header (Some "1.2.392.200036.1") None
    [("ImageType", original);
     ("Manufacturer", VStr "Morita Accuitomo 170");
     ("ImageComments", VStr "FOV 60x60 DAP:777mGycm2 rot 180")].

Definition morita_derived : Dataset :=
  header (Some "1.2.392.200036.1") None
    [("ImageType", VMulti ["DERIVED"; "SECONDARY"]);
     ("Manufacturer", VStr "Morita Accuitomo 170");
     ("ImageComments", VStr "reformatted")].

Definition morita_no_dose : Dataset :=
  header (Some "1.2.392.200036.2") None
    [("ImageType", original);
     ("Manufacturer", VStr "Morita Accuitomo 170");
     ("ImageComments", VStr "dose not recorded")].

Definition planmeca_header : Dataset :=
  header (Some "1.2.246.512.7") (Some (Num.NInt 50))
    [("ImageType", original);
     ("Manufacturer", VStr "Planmeca ProMax Mid")].

Definition sectra_header : Dataset :=
  header (Some "1.2.752.24.9") (Some (Num.NFloat (Num.of_Z 7)))
    [("ImageType", original);
     ("Manufacturer", VStr "Sectra");
     ("KVP", VStr "90")].

Definition both_vendors : Dataset :=
  header (Some "1.2.3") (Some (Num.NInt 50))
    [("ImageType", original);
     ("Manufacturer", VStr "Morita (Planmeca import)");
     ("ImageComments", VStr "DAP:7mGycm2")].

Definition no_manufacturer : Dataset :=
  header (Some "1.2.4") None [("ImageType", original)].

Definition no_image_type : Dataset :=
  header (Some "1.2.5") None [("Manufacturer", VStr "Sectra")].

Definition a_file (name : string) (dicom : Dataset) : file :=
  mkFile name true (Ok dicom).

Definition not_dicom : file := mkFile "README.txt" true (Raise InvalidDicomError).

(** A Planmeca examination: 120 slices in one folder. *)
Definition planmeca_dir : dir :=
  Dir (replicate 120 (a_file "slice" planmeca_header)) [].

Definition morita_dir : dir :=
  Dir [a_file "derived" morita_derived;
       a_file "stack1" morita_header;
       a_file "stack2" morita_copy]
      [].

Definition planmeca_pair : dir :=
  Dir [a_file "slice1" planmeca_header; a_file "slice2" planmeca_header] [].

Definition archive : dir :=
  Dir [not_dicom; a_file "sectra" sectra_header] [morita_dir; planmeca_pair].

(** What [process_directory] returns for [archive]. *)
Definition archive_headers : headers :=
  [("1.2.752.24.9", sectra_header);
   ("1.2.392.200036.1", set_dose morita_header (Num.of_Z 123));
   ("1.2.246.512.7",
    set_dose (set_images planmeca_header 2) (Num.of_Z 5000))].

(** A folder in which the second file has no manufacturer. *)
Definition archive_without_manufacturer : dir :=
  Dir [a_file "sectra" sectra_header;
       a_file "anonymous" no_manufacturer;
       a_file "stack1" morita_header]
      [].

(** A folder in which the second file has no image type. *)
Definition archive_without_image_type : dir :=
  Dir [a_file "sectra" sectra_header;
       a_file "untyped" no_image_type;
       a_file "stack1" morita_header]
      [].

Definition some_columns : list string :=
  ["SeriesInstanceUID"; "KVP"; "AcquiredImageAreaDoseProduct";
   "ImagesInAcquisition"; "Manufacturer"].

(** * The script's entry point *)

(** [selected_columns] (lines 159-166) *)
Definition selected_columns : list string :=
  ["AccessionNumber"; "SeriesInstanceUID"; "StudyDate"; "StudyTime";
   "PatientBirthDate"; "PatientSex";
   "KVP"; "XRayTubeCurrent"; "ExposureTime"; "AcquiredImageAreaDoseProduct";
   "Columns"; "Rows"; "PixelSpacing"; "ImagesInAcquisition"; "SliceThickness";
   "Manufacturer"; "StationName"; "ManufacturerModelName";
   "ImageComments"].

(** The two calls at the end of the script (lines 168-170): the table is
    built only when the whole traversal has returned. *)
Definition script (directory_path : dir) : result table :=
  dicom_headers ← process_directory directory_path;
  mret (dicom_headers_to_csv dicom_headers selected_columns).

(** * More vocabulary *)

(** The identifier under which [process_file] may store a file's record: the
    file parses, the record is not derived, and its Series Instance UID is
    present and not empty. *)
Definition stored_uid (f : file) : option string :=
  match dcmread f with
  | Ok dicom =>
      match py_in "DERIVED" (getattr dicom "ImageType") with
      | Ok false =>
          match SeriesInstanceUID dicom with
          | Some uid => if Str.is_empty uid then None else Some uid
          | None => None
          end
      | _ => None
      end
  | Raise _ => None
  end.

Definition stored_uids (l : list (dir * file)) : list string :=
  omap (λ rf, stored_uid rf.2) l.

(** The identifiers of [l] that are not in [seen], each once, in the order of
    their first occurrence. *)
Fixpoint first_seen (seen l : list string) : list string :=
  match l with
  | [] => []
  | uid :: l' =>
      if bool_decide (uid ∈ seen) then first_seen seen l'
      else uid :: first_seen (seen ++ [uid]) l'
  end.

(** What holds of every entry of the dictionary: the key is not empty, it is
    the Series Instance UID of the header, and the header is not derived. *)
Definition entry_ok (kv : string * Dataset) : Prop :=
  kv.1 ≠ ""
  ∧ SeriesInstanceUID kv.2 = Some kv.1
  ∧ py_in "DERIVED" (getattr kv.2 "ImageType") = Ok false.

(** A double that is not a NaN and not negative: a zero with sign plus, a
    positive finite number, or plus infinity. *)
Definition nonnegative (x : Num.float) : Prop :=
  match x with
  | S754_zero s | S754_infinity s | S754_finite s _ _ => s = false
  | S754_nan => False
  end.

(** * More example inputs *)

Definition unreadable : file := mkFile "locked" true (Raise OSError).

Definition archive_unreadable : dir :=
  Dir [a_file "sectra" sectra_header; unreadable;
       a_file "stack1" morita_header]
      [].

(** No Series Instance UID, and no manufacturer either. *)
Definition no_uid : Dataset := header None None [("ImageType", original)].

Definition empty_uid : Dataset :=
  header (Some "") None [("ImageType", original)].

(** The identifier of [sectra_header], and no manufacturer. *)
Definition sectra_duplicate : Dataset :=
  header (Some "1.2.752.24.9") None [("ImageType", original)].

(** A Planmeca record with no dose element. *)
Definition planmeca_no_dose : Dataset :=
  header (Some "1.2.246.512.8") None
    [("ImageType", original);
     ("Manufacturer", VStr "Planmeca ProMax Mid")].

(** A Planmeca record whose dose element is present with no value. *)
Definition planmeca_empty_dose : Dataset :=
  mkDataset (Some "1.2.246.512.9") (Some NoValue)
    (list_to_map [("ImageType", original);
                  ("Manufacturer", VStr "Planmeca ProMax Mid")]).

Definition morita_no_comments : Dataset :=
  header (Some "1.2.392.200036.3") None
    [("ImageType", original);
     ("Manufacturer", VStr "Morita Accuitomo 170")].

Definition archive_planmeca_no_dose : dir :=
  Dir [a_file "sectra" sectra_header; a_file "slice" planmeca_no_dose] [].

Definition archive_planmeca_empty_dose : dir :=
  Dir [a_file "sectra" sectra_header; a_file "slice" planmeca_empty_dose] [].

Definition archive_morita_no_comments : dir :=
  Dir [a_file "sectra" sectra_header; a_file "stack" morita_no_comments] [].

(** Comments with a line feed and a comma. *)
Definition sectra_commented : Dataset :=
  header (Some "1.2.752.24.10") None
    [("ImageType", original);
     ("Manufacturer", VStr "Sectra");
     ("ImageComments", VStr ("first" +:+ String "010"%char "second, third"))].

(** A folder with a link that is no regular file, and a sub-folder. *)
Definition mixed_dir : dir :=
  Dir [a_file "a" sectra_header; mkFile "dangling" false (Raise OSError)]
      [Dir [not_dicom; a_file "b" morita_header] []].

(** * Facts about strings and patterns *)

Module StrFacts.
Import Str.

Lemma append_assoc (a b c : string) : (a +:+ b) +:+ c = a +:+ b +:+ c.
Proof. induction a as [|x a IH]; simpl; [done | by rewrite IH]. Qed.

Lemma append_empty_r (a : string) : a +:+ "" = a.
Proof. induction a as [|x a IH]; simpl; [done | by rewrite IH]. Qed.

Lemma strip_prefix_app (p r : string) : strip_prefix p (p +:+ r) = Some r.
Proof.
  induction p as [|a p IH]; simpl; [done |].
  by rewrite Ascii.eqb_refl.
Qed.

Lemma strip_prefix_Some (p s r : string) :
  strip_prefix p s = Some r → s = p +:+ r.
Proof.
  revert s. induction p as [|a p IH]; intros s; simpl.
  - congruence.
  - destruct s as [|b s]; [done |].
    destruct (Ascii.eqb_spec a b) as [->|]; [| done].
    intros H. by rewrite (IH _ H).
Qed.

(** [contains] is the substring relation. *)
Lemma contains_here (n s r : string) :
  strip_prefix n s = Some r → contains n s = true.
Proof. intros H. destruct s; simpl; by rewrite H. Qed.

Lemma contains_intro (n pre post : string) :
  contains n (pre +:+ n +:+ post) = true.
Proof.
  induction pre as [|c pre IH]; simpl.
  - apply (contains_here _ _ post), strip_prefix_app.
  - rewrite IH. by destruct (strip_prefix n _).
Qed.

Lemma contains_elim (n s : string) :
  contains n s = true → ∃ pre post, s = pre +:+ n +:+ post.
Proof.
  induction s as [|c s IH]; simpl.
  - destruct (strip_prefix n "") as [r|] eqn:E; [| done].
    intros _. exists "", r. simpl. by apply strip_prefix_Some.
  - destruct (strip_prefix n (String c s)) as [r|] eqn:E.
    + intros _. exists "", r. simpl. by apply strip_prefix_Some.
    + intros H. destruct (IH H) as (pre & post & ->).
      by exists (String c pre), post.
Qed.

Lemma contains_false (n pre post : string) :
  contains n (pre +:+ n +:+ post) = false → False.
Proof. by rewrite contains_intro. Qed.

(** Trimming keeps what lies between two characters that are not blank. *)
Lemma lstrip_app (pre s : string) a :
  is_space a = false →
  ∃ pre', lstrip (pre +:+ String a s) = pre' +:+ String a s.
Proof.
  intros Ha. induction pre as [|c pre [pre' IH]]; simpl.
  - rewrite Ha. by exists "".
  - destruct (is_space c); [by exists pre' | by exists (String c pre)].
Qed.

Lemma rstrip_app (s post : string) z :
  is_space z = false →
  rstrip (s +:+ String z post) = s +:+ String z (rstrip post).
Proof.
  intros Hz. induction s as [|c s IH]; simpl.
  - by rewrite Hz.
  - rewrite IH. destruct s; simpl; by rewrite andb_false_r.
Qed.

Lemma lstrip_suffix (s : string) : ∃ ws, s = ws +:+ lstrip s.
Proof.
  induction s as [|c s [ws IH]]; simpl; [by exists "" |].
  destruct (is_space c); [| by exists ""].
  exists (String c ws). simpl. by rewrite <- IH.
Qed.

Lemma rstrip_prefix (s : string) : ∃ ws, s = rstrip s +:+ ws.
Proof.
  induction s as [|c s [ws IH]]; simpl; [by exists "" |].
  destruct (is_space c && is_empty (rstrip s)) eqn:E.
  - by exists (String c s).
  - exists ws. simpl. by rewrite <- IH.
Qed.

(** A needle that neither starts nor ends with a blank is in the trimmed
    string exactly when it is in the string. *)
Lemma contains_strip (n s : string) a n' b z :
  n = String a n' → n = b +:+ String z "" →
  is_space a = false → is_space z = false →
  contains n (strip s) = contains n s.
Proof.
  intros Hn1 Hn2 Ha Hz. unfold strip.
  destruct (contains n s) eqn:E.
  - apply contains_elim in E as (pre & post & ->).
    destruct (lstrip_app pre (n' +:+ post) a Ha) as [pre' Hl].
    assert (E1 : pre +:+ n +:+ post = pre +:+ String a (n' +:+ post))
      by (by rewrite Hn1).
    assert (E2 : pre' +:+ String a (n' +:+ post)
                 = (pre' +:+ b) +:+ String z post).
    { change (String a (n' +:+ post)) with (String a n' +:+ post).
      rewrite <- Hn1, Hn2, !append_assoc. done. }
    assert (E3 : (pre' +:+ b) +:+ String z (rstrip post)
                 = pre' +:+ n +:+ rstrip post).
    { rewrite Hn2, !append_assoc. done. }
    rewrite E1, Hl, E2, rstrip_app, E3 by done.
    apply contains_intro.
  - destruct (contains n (rstrip (lstrip s))) eqn:E'; [| done].
    apply contains_elim in E' as (pre & post & E').
    destruct (lstrip_suffix s) as [w1 H1].
    destruct (rstrip_prefix (lstrip s)) as [w2 H2].
    rewrite H1, H2, E' in E.
    rewrite !append_assoc in E. rewrite <- (append_assoc w1) in E.
    by apply contains_false in E.
Qed.

Lemma contains_strip_Morita (s : string) :
  contains "Morita" (strip s) = contains "Morita" s.
Proof. by apply (contains_strip _ _ "M" "orita" "Morit" "a"). Qed.

Lemma contains_strip_Planmeca (s : string) :
  contains "Planmeca" (strip s) = contains "Planmeca" s.
Proof. by apply (contains_strip _ _ "P" "lanmeca" "Planmec" "a"). Qed.

End StrFacts.

Module ReFacts.
Import Str StrFacts.

Ltac ascii_cases c :=
  destruct c as [[] [] [] [] [] [] [] []]; try reflexivity; try discriminate.

Lemma digit_not_sign c : is_digit c = true → Re.is_sign c = false.
Proof. ascii_cases c. Qed.

Lemma digit_not_dot c : is_digit c = true → Ascii.eqb c "." = false.
Proof. ascii_cases c. Qed.

Lemma span_digits_app (d t : string) :
  all_digits d = true → starts_nondigit t → span_digits (d +:+ t) = (d, t).
Proof.
  intros Hd Ht. induction d as [|c d IH]; simpl in *.
  - destruct t as [|c t]; [done |]. simpl in *. by rewrite Ht.
  - apply andb_true_iff in Hd as [Hc Hd]. by rewrite Hc, IH.
Qed.

Lemma span_digits_spec (s d t : string) :
  span_digits s = (d, t) →
  s = d +:+ t ∧ all_digits d = true ∧ starts_nondigit t.
Proof.
  revert d t. induction s as [|c s IH]; intros d t; simpl.
  - intros [= <- <-]. done.
  - destruct (is_digit c) eqn:Hc.
    + destruct (span_digits s) as [d' t'].
      intros [= <- <-]. destruct (IH _ _ eq_refl) as (-> & Hd & Ht).
      simpl. by rewrite Hc, Hd.
    + intros [= <- <-]. done.
Qed.

Lemma span_all_digits (d : string) :
  all_digits d = true → span_digits d = (d, "").
Proof.
  intros Hd. rewrite <- (append_empty_r d) at 1. by apply span_digits_app.
Qed.

Lemma is_empty_false (s : string) : s ≠ "" → is_empty s = false.
Proof. by destruct s. Qed.

Lemma is_empty_true (s : string) : is_empty s = true → s = "".
Proof. by destruct s. Qed.

(** The matcher of the dose pattern finds exactly the dose tokens. *)
Lemma dap_match (s ds : string) :
  dap_at s ds → Re.dap s = Some (dap_token ds).
Proof.
  intros (rest & -> & Hd & Hne). unfold Re.dap, dap_token.
  rewrite !append_assoc, strip_prefix_app. simpl.
  rewrite span_digits_app by done.
  rewrite is_empty_false by done.
  change (strip_prefix "mGycm2" ("mGycm2" +:+ rest)) with (Some rest).
  done.
Qed.

Lemma dap_match_inv (s g : string) :
  Re.dap s = Some g → ∃ ds, g = dap_token ds ∧ dap_at s ds.
Proof.
  unfold Re.dap.
  destruct (strip_prefix "DAP:" s) as [r|] eqn:E1;
    cbn [mbind option_bind]; [| done].
  destruct (span_digits r) as [d t] eqn:E2.
  destruct (is_empty d) eqn:E3; [done |].
  destruct (strip_prefix "mGycm2" t) as [rest|] eqn:E4;
    cbn [mbind option_bind]; [| done].
  intros [= <-]. exists d. split; [done |].
  apply strip_prefix_Some in E1 as ->.
  apply span_digits_spec in E2 as (-> & Hd & _).
  apply strip_prefix_Some in E4 as ->.
  exists rest. unfold dap_token. rewrite !append_assoc.
  split_and!; [done | done |]. by intros ->.
Qed.

Lemma dap_no_match (s : string) :
  Re.dap s = None ↔ ∀ ds, ¬ dap_at s ds.
Proof.
  split.
  - intros H ds Hat. apply dap_match in Hat. congruence.
  - intros H. destruct (Re.dap s) as [g|] eqn:E; [| done].
    apply dap_match_inv in E as (ds & _ & Hat). by destruct (H ds).
Qed.

Lemma search_here (p : Re.pattern) (s g : string) :
  p s = Some g → Re.search p s = Some g.
Proof. intros H. destruct s; simpl; by rewrite H. Qed.

Lemma search_next (p : Re.pattern) c (s : string) :
  p (String c s) = None → Re.search p (String c s) = Re.search p s.
Proof. intros H. simpl. by rewrite H. Qed.

Lemma search_empty (p : Re.pattern) :
  p "" = None → Re.search p "" = None.
Proof. intros H. simpl. by rewrite H. Qed.

(** [re.search] with the dose pattern returns the first dose token. *)
Lemma search_dap_first (s ds : string) :
  first_dap s ds → Re.search Re.dap s = Some (dap_token ds).
Proof.
  induction 1 as [s ds Hat | c s ds Hno _ IH].
  - by apply search_here, dap_match.
  - apply dap_no_match in Hno. by rewrite search_next.
Qed.

Lemma search_dap_inv (s g : string) :
  Re.search Re.dap s = Some g → ∃ ds, g = dap_token ds ∧ first_dap s ds.
Proof.
  induction s as [|c s IH].
  - destruct (Re.dap "") eqn:E.
    + rewrite (search_here _ _ _ E). intros [= <-].
      apply dap_match_inv in E as (ds & -> & Hat).
      exists ds. split; [done | by constructor].
    + by rewrite search_empty.
  - destruct (Re.dap (String c s)) eqn:E.
    + rewrite (search_here _ _ _ E). intros [= <-].
      apply dap_match_inv in E as (ds & -> & Hat).
      exists ds. split; [done | by constructor].
    + rewrite search_next by done.
      intros H. destruct (IH H) as (ds & -> & Hf).
      exists ds. split; [done |].
      apply first_dap_later; [by apply dap_no_match | done].
Qed.

(** A text that contains a dose token has a first one. *)
Lemma dap_in_first (s ds : string) :
  dap_in s ds → ∃ ds', first_dap s ds'.
Proof.
  intros (pre & post & -> & Hd & Hne).
  induction pre as [|c pre [ds' IH]]; simpl.
  - exists ds. constructor. by exists post.
  - destruct (Re.dap (String c (pre +:+ dap_token ds +:+ post))) eqn:E.
    + apply dap_match_inv in E as (ds1 & _ & Hat).
      exists ds1. by constructor.
    + exists ds'. apply first_dap_later; [by apply dap_no_match | done].
Qed.

Lemma search_dap_none (s : string) :
  Re.search Re.dap s = None ↔ ∀ ds, ¬ dap_in s ds.
Proof.
  split.
  - intros H ds Hin. destruct (dap_in_first _ _ Hin) as [ds' Hf].
    apply search_dap_first in Hf. congruence.
  - intros H. destruct (Re.search Re.dap s) as [g|] eqn:E; [| done].
    apply search_dap_inv in E as (ds & _ & Hf). exfalso.
    clear g. induction Hf as [s ds (rest & -> & Hd & Hne) | c s ds _ _ IH].
    + apply (H ds). by exists "", rest.
    + apply IH. intros ds' (pre & post & -> & Hd & Hne).
      apply (H ds'). by exists (String c pre), post.
Qed.

(** The number pattern, run on a dose token, returns its digits. *)
Lemma number_skip c (s : string) :
  is_digit c = false → Re.is_sign c = false → Ascii.eqb c "." = false →
  Re.number (String c s) = None.
Proof.
  intros Hd Hs Hp. unfold Re.number, Re.signed_decimal, Re.decimal_point,
    Re.digits. rewrite Hs. simpl. by rewrite Hd, Hp.
Qed.

Lemma number_digits (d t : string) :
  all_digits d = true → d ≠ "" → starts_nondigit t →
  match t with String c _ => Ascii.eqb c "." = false | _ => True end →
  Re.number (d +:+ t) = Some d.
Proof.
  intros Hd Hne Ht Hdot.
  destruct d as [|c d]; [done |]. simpl in Hd.
  apply andb_true_iff in Hd as [Hc Hd].
  assert (Hspan : span_digits (String c d +:+ t) = (String c d, t)).
  { apply span_digits_app; [| done]. simpl. by rewrite Hc, Hd. }
  change (String c d +:+ t) with (String c (d +:+ t)) in *.
  unfold Re.number, Re.signed_decimal, Re.decimal_point, Re.digits.
  rewrite (digit_not_sign c Hc), Hspan.
  destruct t as [|x t]; [done |]. by rewrite Hdot.
Qed.

Lemma search_number_token (ds : string) :
  all_digits ds = true → ds ≠ "" →
  Re.search Re.number (dap_token ds) = Some ds.
Proof.
  intros Hd Hne. unfold dap_token.
  change ("DAP:" +:+ ds +:+ "mGycm2")
    with (String "D" (String "A" (String "P" (String ":" (ds +:+ "mGycm2"))))).
  do 4 (rewrite search_next by (by apply number_skip)).
  apply search_here. by apply number_digits.
Qed.

Lemma search_match (p : Re.pattern) (s g : string) :
  Re.search p s = Some g → ∃ pre t, s = pre +:+ t ∧ p t = Some g.
Proof.
  induction s as [|c s IH].
  - simpl. destruct (p "") eqn:E; [| done]. intros [= <-]. by exists "", "".
  - simpl. destruct (p (String c s)) eqn:E.
    + intros [= <-]. by exists "", (String c s).
    + intros H. destruct (IH H) as (pre & t & -> & Hp).
      by exists (String c pre), t.
Qed.

(** [float] of a digit string is the double nearest to its value. *)
Lemma float_of_digits (ds : string) :
  all_digits ds = true → ds ≠ "" →
  Num.float_of_string ds = Ok (Num.of_Z (decimal ds)).
Proof.
  intros Hd Hne. destruct ds as [|c d]; [done |].
  assert (Hc : is_digit c = true).
  { simpl in Hd. by apply andb_true_iff in Hd as [? _]. }
  assert (Hu : Num.unsigned_numeral false (String c d)
               = Ok (Num.of_Z (decimal (String c d)))).
  { unfold Num.unsigned_numeral. by rewrite span_all_digits. }
  unfold Num.float_of_string.
  replace (Ascii.eqb c "-") with false by (clear -Hc; ascii_cases c).
  replace (Ascii.eqb c "+") with false by (clear -Hc; ascii_cases c).
  done.
Qed.

(** [float] reads whatever the number pattern matches. *)
Lemma decimal_point_numeral (s g : string) neg :
  Re.decimal_point s = Some g → ∃ x, Num.unsigned_numeral neg g = Ok x.
Proof.
  unfold Re.decimal_point.
  destruct (span_digits s) as [i t] eqn:Ei.
  destruct t as [|c u]; [done |].
  destruct (Ascii.eqb_spec c ".") as [->|]; [| done].
  destruct (span_digits u) as [f r] eqn:Ef.
  destruct (is_empty f) eqn:Hf; [done |]. intros [= <-].
  apply span_digits_spec in Ei as (_ & Hi & _).
  apply span_digits_spec in Ef as (_ & Hd & _).
  unfold Num.unsigned_numeral.
  change (i +:+ "." +:+ f) with (i +:+ String "." f).
  rewrite span_digits_app by done.
  rewrite Ascii.eqb_refl, span_all_digits, Hf by done. simpl. eauto.
Qed.

Lemma decimal_point_head (s g : string) :
  Re.decimal_point s = Some g →
  ∃ c g', g = String c g' ∧ Re.is_sign c = false.
Proof.
  unfold Re.decimal_point.
  destruct (span_digits s) as [i t] eqn:Ei.
  destruct t as [|c u]; [done |].
  destruct (Ascii.eqb_spec c ".") as [->|]; [| done].
  destruct (span_digits u) as [f r].
  destruct (is_empty f); [done |]. intros [= <-].
  apply span_digits_spec in Ei as (_ & Hi & _).
  destruct i as [|x i]; simpl.
  - by exists "."%char, f.
  - exists x, (i +:+ String "." f). split; [done |].
    simpl in Hi. apply andb_true_iff in Hi as [Hx _].
    by apply digit_not_sign.
Qed.

Lemma unsigned_float (c : ascii) (g : string) :
  Re.is_sign c = false →
  Num.float_of_string (String c g) = Num.unsigned_numeral false (String c g).
Proof.
  unfold Re.is_sign, Num.float_of_string. intros H.
  apply orb_false_iff in H as [-> ->]. done.
Qed.

Lemma number_numeral (s g : string) :
  Re.number s = Some g → ∃ x, Num.float_of_string g = Ok x.
Proof.
  unfold Re.number.
  destruct (Re.signed_decimal s) as [g0|] eqn:E.
  - intros [= <-]. unfold Re.signed_decimal in E.
    assert (Hplain : ∀ t, Re.decimal_point t = Some g0 →
                          ∃ x, Num.float_of_string g0 = Ok x).
    { intros t Ht. destruct (decimal_point_head _ _ Ht) as (c & g' & -> & Hc).
      rewrite unsigned_float by done. by apply (decimal_point_numeral t). }
    destruct s as [|c r]; [by apply (Hplain "") |].
    destruct (Re.is_sign c) eqn:Hc; [| by apply (Hplain (String c r))].
    destruct (Re.decimal_point r) as [g1|] eqn:E1;
      [| by apply (Hplain (String c r))].
    injection E as <-. unfold Num.float_of_string.
    destruct (Ascii.eqb c "-") eqn:Hm; [by apply (decimal_point_numeral r) |].
    destruct (Ascii.eqb c "+") eqn:Hp; [by apply (decimal_point_numeral r) |].
    unfold Re.is_sign in Hc. by rewrite Hm, Hp in Hc.
  - unfold Re.digits. destruct (span_digits s) as [d t] eqn:Ed.
    destruct (is_empty d) eqn:He; [done |]. intros [= <-].
    apply span_digits_spec in Ed as (_ & Hd & _).
    exists (Num.of_Z (decimal d)). apply float_of_digits; [done |].
    by intros ->.
Qed.

End ReFacts.

(** * Facts about the script *)

Module ScriptFacts.
Import Str StrFacts ReFacts.

Lemma bind_Ok {A B} (a : A) (k : A → result B) : (Ok a ≫= k) = k a.
Proof. done. Qed.

Lemma bind_Raise {A B} e (k : A → result B) : (Raise e ≫= k) = Raise e.
Proof. done. Qed.

Lemma bind_inv {A B} (m : result A) (k : A → result B) b :
  (m ≫= k) = Ok b → ∃ a, m = Ok a ∧ k a = Ok b.
Proof. destruct m as [a|e]; [by exists a | done]. Qed.

(** *** Loops *)

Lemma foldM_app {S A} (body : S → A → result S) s (l1 l2 : list A) :
  foldM body s (l1 ++ l2) = foldM body s l1 ≫= λ s', foldM body s' l2.
Proof.
  revert s. induction l1 as [|a l1 IH]; intros s; simpl; [done |].
  destruct (body s a) as [s'|e]; simpl; [apply IH | done].
Qed.

Lemma foldM_map {S A B} (body : S → B → result S) (g : A → B) s (l : list A) :
  foldM body s (map g l) = foldM (λ s a, body s (g a)) s l.
Proof.
  revert s. induction l as [|a l IH]; intros s; simpl; [done |].
  destruct (body s (g a)); simpl; [apply IH | done].
Qed.

(** The nested loops of [process_directory] are one loop over the
    traversal. *)
Lemma process_directory_run (top : dir) :
  process_directory top = run [] (traversal top).
Proof.
  unfold process_directory, run, traversal.
  generalize (walk top) ([] : headers).
  induction l as [|root l IH]; intros h; simpl; [done |].
  rewrite foldM_app, foldM_map. simpl.
  destruct (foldM (process_file root) h (dir_files root)); simpl;
    [apply IH | done].
Qed.

Lemma run_app (h : headers) (l1 l2 : list (dir * file)) :
  run h (l1 ++ l2) = run h l1 ≫= λ h', run h' l2.
Proof. apply foldM_app. Qed.

Lemma run_cons (h : headers) root f (l : list (dir * file)) :
  run h ((root, f) :: l) = process_file root h f ≫= λ h', run h' l.
Proof. done. Qed.

(** *** Counting files *)

Lemma dir_induction (P : dir → Prop) :
  (∀ fs ds, Forall P ds → P (Dir fs ds)) → ∀ d, P d.
Proof.
  intros H. fix IH 1. intros [fs ds]. apply H.
  induction ds as [|d ds IHds]; constructor; [apply IH | apply IHds].
Qed.

Lemma count_loop (fs : list file) (n : nat) :
  fold_left (λ file_count f, if isfile f then S file_count else file_count)
            fs n
  = (n + length (List.filter isfile fs))%nat.
Proof.
  revert n. induction fs as [|f fs IH]; intros n; simpl; [lia |].
  rewrite IH. destruct (isfile f); simpl; lia.
Qed.

Lemma count_walk (ds : list dir) (n : nat) :
  fold_left
    (λ file_count root,
       fold_left
         (λ file_count f, if isfile f then S file_count else file_count)
         (dir_files root) file_count)
    ds n
  = (n + sum_list (map (λ d, length (List.filter isfile (dir_files d))) ds))%nat.
Proof.
  revert n. induction ds as [|d ds IH]; intros n; simpl; [lia |].
  rewrite IH, count_loop. lia.
Qed.

Lemma sum_list_app (l1 l2 : list nat) :
  sum_list (l1 ++ l2) = (sum_list l1 + sum_list l2)%nat.
Proof. induction l1 as [|x l1 IH]; simpl; lia. Qed.

Lemma regular_files_walk (d : dir) :
  sum_list (map (λ d, length (List.filter isfile (dir_files d))) (walk d))
  = regular_files d.
Proof.
  induction d as [fs ds IH] using dir_induction. simpl. f_equal.
  induction IH as [|d ds Hd _ IHds]; simpl; [done |].
  rewrite map_app, sum_list_app, Hd. by rewrite IHds.
Qed.

(** [count_files] counts the regular files below the directory. *)
Lemma count_files_spec (d : dir) : count_files (Some d) = regular_files d.
Proof.
  unfold count_files. rewrite count_walk. simpl (0 + _)%nat.
  apply regular_files_walk.
Qed.

(** *** Dose extraction *)

Lemma first_dap_digits (s ds : string) :
  first_dap s ds → all_digits ds = true ∧ ds ≠ "".
Proof. induction 1 as [s ds (rest & _ & Hd & Hne) | ]; done. Qed.

Lemma first_dap_in (s ds : string) : first_dap s ds → dap_in s ds.
Proof.
  induction 1 as [s ds (rest & -> & Hd & Hne) | c s ds _ _ IH].
  - by exists "", rest.
  - destruct IH as (pre & post & -> & Hd & Hne).
    by exists (String c pre), post.
Qed.

Lemma extract_first (c ds : string) :
  first_dap c ds →
  extract_value_from_comments (Some (VStr c)) Re.dap = Ok (Some ds).
Proof.
  intros Hf. destruct (first_dap_digits _ _ Hf) as [Hd Hne].
  unfold extract_value_from_comments.
  by rewrite (search_dap_first _ _ Hf), search_number_token.
Qed.

Lemma extract_no_token (c : string) :
  (∀ ds, ¬ dap_in c ds) →
  extract_value_from_comments (Some (VStr c)) Re.dap = Raise AttributeError.
Proof.
  intros H. apply search_dap_none in H.
  unfold extract_value_from_comments. by rewrite H.
Qed.

(** Whatever text the extraction returns, [float] reads it. *)
Lemma extract_numeral (comments : option value) (p : Re.pattern) (g : string) :
  extract_value_from_comments comments p = Ok (Some g) →
  ∃ x, Num.float_of_optional_string (Some g) = Ok x.
Proof.
  destruct comments as [[c| | |]|]; simpl; try done.
  destruct (Re.search p c) as [g0|]; [| done].
  destruct (Re.search Re.number g0) as [g1|] eqn:E; [| done].
  intros [= <-]. apply search_match in E as (pre & t & _ & Hn).
  by apply (number_numeral t).
Qed.

(** The branch of [extract_value_from_comments] that returns [None] is
    never taken with the dose pattern. *)
Lemma extract_never_None (comments : option value) :
  extract_value_from_comments comments Re.dap ≠ Ok None.
Proof.
  destruct comments as [[c| | |]|]; simpl; try done.
  destruct (Re.search Re.dap c) as [g|] eqn:E; [| done].
  apply search_dap_inv in E as (ds & -> & Hf).
  destruct (first_dap_digits _ _ Hf) as [Hd Hne].
  by rewrite search_number_token.
Qed.

(** *** Attributes *)

Lemma getattr_set_dose_dose (dicom : Dataset) x :
  getattr (set_dose dicom x) "AcquiredImageAreaDoseProduct"
  = Some (VNum (Num.NFloat x)).
Proof. done. Qed.

Lemma getattr_set_dose_other (dicom : Dataset) x (name : string) :
  name ≠ "AcquiredImageAreaDoseProduct" →
  getattr (set_dose dicom x) name = getattr dicom name.
Proof.
  intros Hne. unfold getattr.
  destruct (String.eqb_spec name "AcquiredImageAreaDoseProduct"); done.
Qed.

Lemma getattr_set_images_images (dicom : Dataset) n :
  getattr (set_images dicom n) "ImagesInAcquisition"
  = Some (VNum (Num.NInt n)).
Proof. unfold getattr. simpl. by rewrite lookup_insert_eq. Qed.

Lemma getattr_set_images_other (dicom : Dataset) n (name : string) :
  name ≠ "ImagesInAcquisition" →
  getattr (set_images dicom n) name = getattr dicom name.
Proof.
  intros Hne. unfold getattr. simpl.
  by rewrite lookup_insert_ne.
Qed.

(** *** The vendor dispatch *)

Lemma vendor_morita root (dicom : Dataset) (m : string) :
  getattr dicom "Manufacturer" = Some (VStr m) →
  contains "Morita" (strip m) = true →
  vendor_correction root dicom
  = (extract_value_from_comments (getattr dicom "ImageComments") Re.dap
     ≫= λ DAP_dose, Num.float_of_optional_string DAP_dose
     ≫= λ x, Ok (set_dose dicom x)).
Proof.
  intros Hm HM. unfold vendor_correction. rewrite Hm. simpl.
  by rewrite HM.
Qed.

Lemma vendor_planmeca root (dicom : Dataset) (m : string) :
  getattr dicom "Manufacturer" = Some (VStr m) →
  contains "Morita" (strip m) = false →
  contains "Planmeca" (strip m) = true →
  vendor_correction root dicom
  = match AcquiredImageAreaDoseProduct dicom with
    | None => Raise AttributeError
    | Some d =>
        float_of_numeric d ≫= λ x,
        Ok (set_dose (set_images dicom (Z.of_nat (count_files (Some root))))
                     (Num.mul x (Num.of_Z 100)))
    end.
Proof.
  intros Hm HM HP. unfold vendor_correction. rewrite Hm. simpl.
  by rewrite HM, HP.
Qed.

Lemma vendor_other root (dicom : Dataset) (m : string) :
  getattr dicom "Manufacturer" = Some (VStr m) →
  contains "Morita" (strip m) = false →
  contains "Planmeca" (strip m) = false →
  vendor_correction root dicom = Ok dicom.
Proof.
  intros Hm HM HP. unfold vendor_correction. rewrite Hm. simpl.
  by rewrite HM, HP.
Qed.

Lemma vendor_no_strip root (dicom : Dataset) :
  (∀ m, getattr dicom "Manufacturer" ≠ Some (VStr m)) →
  vendor_correction root dicom = Raise AttributeError.
Proof.
  intros H. unfold vendor_correction.
  destruct (getattr dicom "Manufacturer") as [[m| | |]|]; try done.
  by destruct (H m).
Qed.

(** The dispatch leaves the identifier and the image type alone. *)
Lemma vendor_keeps root (dicom dicom' : Dataset) :
  vendor_correction root dicom = Ok dicom' →
  SeriesInstanceUID dicom' = SeriesInstanceUID dicom
  ∧ getattr dicom' "ImageType" = getattr dicom "ImageType".
Proof.
  unfold vendor_correction.
  destruct (py_strip (getattr dicom "Manufacturer")) as [m|]; [simpl | done].
  destruct (contains "Morita" m).
  - intros H. apply bind_inv in H as (g & _ & H).
    apply bind_inv in H as (x & _ & [= <-]). done.
  - destruct (contains "Planmeca" m); [| by intros [= <-]].
    simpl. destruct (AcquiredImageAreaDoseProduct dicom); [| done].
    intros H. apply bind_inv in H as (x & _ & [= <-]).
    split; [done |].
    by rewrite getattr_set_dose_other, getattr_set_images_other.
Qed.

(** The vendor dispatch changes the dose and the slice count at most. *)
Lemma vendor_frame root (dicom dicom' : Dataset) (name : string) :
  vendor_correction root dicom = Ok dicom' →
  name ≠ "AcquiredImageAreaDoseProduct" →
  name ≠ "ImagesInAcquisition" →
  getattr dicom' name = getattr dicom name.
Proof.
  unfold vendor_correction. intros H H1 H2.
  destruct (py_strip (getattr dicom "Manufacturer")) as [m|]; [simpl in H | done].
  destruct (contains "Morita" m).
  - apply bind_inv in H as (g & _ & H).
    apply bind_inv in H as (x & _ & [= <-]).
    by rewrite getattr_set_dose_other.
  - destruct (contains "Planmeca" m); [| by injection H as <-].
    simpl in H. destruct (AcquiredImageAreaDoseProduct dicom); [| done].
    apply bind_inv in H as (x & _ & [= <-]).
    by rewrite getattr_set_dose_other, getattr_set_images_other.
Qed.

(** *** One file *)

Lemma process_file_parsed root (h : headers) (f : file) (dicom : Dataset) :
  dcmread f = Ok dicom →
  process_file root h f
  = (py_in "DERIVED" (getattr dicom "ImageType")
     ≫= λ derived : bool, if derived then Ok h else accept h root dicom).
Proof.
  intros Hr. unfold process_file, is_dicom_file, accept. rewrite Hr.
  simpl. destruct (py_in _ _) as [[]|]; try done.
Qed.

Lemma process_file_unread root (h : headers) (f : file) e :
  dcmread f = Raise e →
  process_file root h f
  = match e with InvalidDicomError => Ok h | _ => Raise e end.
Proof.
  intros Hr. unfold process_file, is_dicom_file. rewrite Hr.
  by destruct e.
Qed.

Lemma process_file_derived root (h : headers) (f : file) (dicom : Dataset) :
  dcmread f = Ok dicom →
  py_in "DERIVED" (getattr dicom "ImageType") = Ok true →
  process_file root h f = Ok h.
Proof. intros Hr Hd. by rewrite (process_file_parsed _ _ _ _ Hr), Hd. Qed.

Lemma process_file_accept root (h : headers) (f : file) (dicom : Dataset) uid :
  dcmread f = Ok dicom →
  py_in "DERIVED" (getattr dicom "ImageType") = Ok false →
  SeriesInstanceUID dicom = Some uid →
  uid ≠ "" →
  has_key uid h = false →
  process_file root h f
  = (vendor_correction root dicom ≫= λ dicom', Ok (h ++ [(uid, dicom')])).
Proof.
  intros Hr Hd Hu Hne Hk.
  rewrite (process_file_parsed _ _ _ _ Hr), Hd. simpl.
  unfold accept. by rewrite Hu, is_empty_false, Hk.
Qed.

(** What a step that returns has done: nothing, or it has appended the
    corrected header of a record that qualifies under a new identifier. *)
Lemma process_file_inv root (h h' : headers) (f : file) :
  process_file root h f = Ok h' →
  h' = h
  ∨ ∃ uid dicom dicom',
      dcmread f = Ok dicom
      ∧ py_in "DERIVED" (getattr dicom "ImageType") = Ok false
      ∧ SeriesInstanceUID dicom = Some uid
      ∧ uid ≠ ""
      ∧ has_key uid h = false
      ∧ vendor_correction root dicom = Ok dicom'
      ∧ h' = h ++ [(uid, dicom')].
Proof.
  destruct (dcmread f) as [dicom|e] eqn:Hr.
  - rewrite (process_file_parsed _ _ _ _ Hr).
    destruct (py_in _ _) as [[]|] eqn:Hd; simpl; [by intros [= <-]; left | | done].
    unfold accept.
    destruct (SeriesInstanceUID dicom) as [uid|] eqn:Hu;
      [| by intros [= <-]; left].
    destruct (is_empty uid) eqn:He; simpl; [by intros [= <-]; left |].
    destruct (has_key uid h) eqn:Hk; simpl; [by intros [= <-]; left |].
    intros H. apply bind_inv in H as (dicom' & Hv & [= <-]).
    right. exists uid, dicom, dicom'. split_and!; try done.
    by intros ->.
  - rewrite (process_file_unread _ _ _ _ Hr).
    destruct e; try done. intros [= <-]. by left.
Qed.

(** *** Keys of the dictionary *)

Lemma has_key_app uid (h1 h2 : headers) :
  has_key uid (h1 ++ h2) = has_key uid h1 || has_key uid h2.
Proof. apply existsb_app. Qed.

Lemma has_key_cons uid u (d : Dataset) (h : headers) :
  has_key uid ((u, d) :: h) = String.eqb uid u || has_key uid h.
Proof. done. Qed.

Lemma has_key_one_ne uid u (d : Dataset) :
  u ≠ uid → has_key uid [(u, d)] = false.
Proof.
  intros Hne. rewrite has_key_cons. simpl.
  destruct (String.eqb_spec uid u); [by subst | done].
Qed.

Lemma qualifies_Some uid (f : file) (dicom : Dataset) :
  qualifies uid f = Some dicom ↔
  dcmread f = Ok dicom
  ∧ py_in "DERIVED" (getattr dicom "ImageType") = Ok false
  ∧ SeriesInstanceUID dicom = Some uid.
Proof.
  unfold qualifies. split.
  - destruct (dcmread f) as [d|]; [| done].
    destruct (py_in _ _) as [[]|] eqn:E; try done.
    case_decide; [| done]. intros [= <-]. done.
  - intros (-> & -> & Hu). by rewrite decide_True.
Qed.

(** *** The run *)

(** Once an identifier is in the dictionary, no entry for it is added. *)
Lemma run_present uid (l : list (dir * file)) (h hs : headers) :
  has_key uid h = true →
  run h l = Ok hs →
  ∃ new, hs = h ++ new ∧ has_key uid new = false.
Proof.
  revert h. induction l as [|[root f] l IH]; intros h Hk.
  - intros [= <-]. exists []. by rewrite app_nil_r.
  - rewrite run_cons. intros H.
    apply bind_inv in H as (h1 & Hstep & Hrun).
    apply process_file_inv in Hstep
      as [-> | (u & dicom & dicom' & _ & _ & _ & _ & Hku & _ & ->)].
    + by apply IH.
    + destruct (IH (h ++ [(u, dicom')])) as (new & -> & Hnew); [| done |].
      { by rewrite has_key_app, Hk. }
      exists ((u, dicom') :: new). rewrite <- app_assoc. split; [done |].
      rewrite has_key_cons, Hnew.
      destruct (String.eqb_spec uid u) as [->|]; [congruence | done].
Qed.

(** The entry of an identifier is the corrected first qualifying record. *)
Lemma run_first_record uid (l : list (dir * file)) (h hs : headers) :
  uid ≠ "" →
  has_key uid h = false →
  run h l = Ok hs →
  match first_record uid l with
  | Some (root, dicom) =>
      ∃ dicom' new1 new2,
        vendor_correction root dicom = Ok dicom'
        ∧ hs = h ++ new1 ++ (uid, dicom') :: new2
        ∧ has_key uid new1 = false
        ∧ has_key uid new2 = false
  | None => ∃ new, hs = h ++ new ∧ has_key uid new = false
  end.
Proof.
  intros Hne. revert h. induction l as [|[root f] l IH]; intros h Hk.
  - intros [= <-]. exists []. by rewrite app_nil_r.
  - rewrite run_cons. intros H.
    apply bind_inv in H as (h1 & Hstep & Hrun). simpl.
    destruct (qualifies uid f) as [dicom|] eqn:Hq.
    + apply qualifies_Some in Hq as (Hr & Hd & Hu).
      rewrite (process_file_accept _ _ _ _ _ Hr Hd Hu Hne Hk) in Hstep.
      apply bind_inv in Hstep as (dicom' & Hv & [= <-]).
      destruct (run_present uid l (h ++ [(uid, dicom')]) hs)
        as (new & -> & Hnew); [| done |].
      { rewrite has_key_app, has_key_cons, String.eqb_refl.
        by rewrite orb_true_r. }
      exists dicom', [], new. rewrite <- app_assoc. done.
    + apply process_file_inv in Hstep
        as [-> | (u & dicom & dicom' & Hr & Hd & Hu & _ & Hku & _ & ->)].
      { by apply IH. }
      assert (Hneq : u ≠ uid).
      { intros ->. assert (qualifies uid f = Some dicom) as Hq'
          by (by apply qualifies_Some). congruence. }
      specialize (IH (h ++ [(u, dicom')])).
      rewrite has_key_app, Hk, has_key_one_ne in IH by done.
      specialize (IH eq_refl Hrun).
      destruct (first_record uid l) as [[root' d]|].
      * destruct IH as (d' & new1 & new2 & Hv & -> & H1 & H2).
        exists d', ((u, dicom') :: new1), new2.
        rewrite <- app_assoc. split_and!; try done.
        rewrite has_key_cons, H1.
        by destruct (String.eqb_spec uid u); [subst |].
      * destruct IH as (new & -> & Hnew).
        exists ((u, dicom') :: new). rewrite <- app_assoc.
        split; [done |]. rewrite has_key_cons, Hnew.
        by destruct (String.eqb_spec uid u); [subst |].
Qed.

End ScriptFacts.


(** * The export *)

Module ExportFacts.
Import Str.

Lemma map_lookup {A B} (g : A → B) (l : list A) (i : nat) :
  map g l !! i = g <$> l !! i.
Proof.
  revert i. induction l as [|a l IH]; intros [|i]; simpl; done.
Qed.

(** The cell of a field is the cleaned attribute, or the cleaned default. *)
Lemma row_of_lookup (select : list string) (dicom : Dataset) i field :
  select !! i = Some field →
  row_of select dicom !! i
  = Some (clean_value (default (VStr "") (getattr dicom field))).
Proof. intros H. unfold row_of. by rewrite map_lookup, H. Qed.

Lemma row_of_length (select : list string) (dicom : Dataset) :
  length (row_of select dicom) = length select.
Proof. apply length_map. Qed.

Lemma data_rows_lookup (hs : headers) (select : list string) j uid dicom :
  hs !! j = Some (uid, dicom) →
  data_rows (dicom_headers_to_csv hs select) !! j = Some (row_of select dicom).
Proof.
  intros H. unfold dicom_headers_to_csv. cbn [data_rows].
  by rewrite map_lookup, H.
Qed.


(** Cleaning removes no semicolon and turns every comma into one. *)
Lemma clean_value_semicolons (s t : string) :
  clean_value (VStr s) = VStr t →
  count ";" t = (count ";" s + count "," s)%nat.
Proof.
  simpl. intros [= <-]. induction s as [|c s IH]; simpl; [done |].
  rewrite IH.
  destruct (Ascii.eqb_spec c "010") as [->|]; [simpl; lia |].
  destruct (Ascii.eqb_spec c "013") as [->|]; [simpl; lia |].
  destruct (Ascii.eqb_spec c ",") as [->|]; [simpl; lia |].
  destruct (Ascii.eqb c ";"); lia.
Qed.

(** Cleaning leaves no line feed and no carriage return. *)
Lemma clean_value_no_line_break (s t : string) :
  clean_value (VStr s) = VStr t →
  count "010" t = 0%nat ∧ count "013" t = 0%nat.
Proof.
  simpl. intros [= <-]. induction s as [|c s [IH1 IH2]]; simpl; [done |].
  rewrite IH1, IH2.
  destruct (Ascii.eqb_spec c "010") as [->|]; [done |].
  destruct (Ascii.eqb_spec c "013") as [->|]; [done |].
  destruct (Ascii.eqb_spec c ",") as [->|]; [done |].
  destruct (Ascii.eqb_spec c "010"), (Ascii.eqb_spec c "013"); done.
Qed.

End ExportFacts.

(** * The properties of the specification *)

Import Str StrFacts ReFacts ScriptFacts ExportFacts.

Lemma derived_py_in (dicom : Dataset) :
  derived dicom → py_in "DERIVED" (getattr dicom "ImageType") = Ok true.
Proof.
  intros (tokens & -> & Hin). simpl. f_equal.
  apply existsb_exists. exists "DERIVED".
  split; [by apply list_elem_of_In | done].
Qed.

(** A step that raises ends the run, whatever follows. *)
Lemma run_raises (top : dir) (before after : list (dir * file)) root f h e :
  traversal top = before ++ (root, f) :: after →
  run [] before = Ok h →
  process_file root h f = Raise e →
  process_directory top = Raise e.
Proof.
  intros Ht Hb Hf.
  by rewrite process_directory_run, Ht, run_app, Hb, bind_Ok, run_cons, Hf.
Qed.

(** ** De-duplication *)


(** An identifier that no qualifying record carries has no entry. *)
Lemma dedup_absent (top : dir) (hs : headers) (uid : string) :
  process_directory top = Ok hs →
  uid ≠ "" →
  first_record uid (traversal top) = None →
  has_key uid hs = false.
Proof.
  intros Hrun Hne Hfirst. rewrite process_directory_run in Hrun.
  pose proof (run_first_record uid _ [] hs Hne eq_refl Hrun) as H.
  rewrite Hfirst in H. by destruct H as (new & -> & Hnew).
Qed.

(** ** Derived images *)

(** C5. A record whose image type holds the token [DERIVED] is skipped: the
    step leaves the dictionary as it is, and a run over any sequence of files
    gives what it gives without the record's file. *)
Theorem derived_record_discarded (root : dir) (f : file) (dicom : Dataset) :
  dcmread f = Ok dicom →
  derived dicom →
  (∀ h, process_file root h f = Ok h)
  ∧ (∀ h before after,
       run h (before ++ (root, f) :: after) = run h (before ++ after)).
Proof.
  intros Hr Hd.
  assert (Hstep : ∀ h, process_file root h f = Ok h).
  { intros h. apply (process_file_derived _ _ _ dicom Hr).
    by apply derived_py_in. }
  split; [done |]. intros h before after.
  rewrite !run_app. destruct (run h before) as [h'|e]; [| done].
  by rewrite !bind_Ok, run_cons, Hstep.
Qed.

(** No entry of the dictionary comes from a record that tested as derived. *)
Lemma no_derived_entry (top : dir) (hs : headers) uid (dicom' : Dataset) :
  process_directory top = Ok hs →
  (uid, dicom') ∈ hs →
  py_in "DERIVED" (getattr dicom' "ImageType") = Ok false.
Proof.
  rewrite process_directory_run.
  assert (G : ∀ l h, Forall (λ kv, py_in "DERIVED" (getattr kv.2 "ImageType")
                                    = Ok false) h →
                     run h l = Ok hs →
                     Forall (λ kv, py_in "DERIVED" (getattr kv.2 "ImageType")
                                    = Ok false) hs).
  { induction l as [|[root f] l IH]; intros h Hh.
    - by intros [= <-].
    - rewrite run_cons. intros H.
      apply bind_inv in H as (h1 & Hstep & Hrun).
      apply (IH h1); [| done].
      apply process_file_inv in Hstep
        as [-> | (u & d & d' & _ & Hd & _ & _ & _ & Hv & ->)]; [done |].
      apply Forall_app. split; [done |]. constructor; [| done]. simpl.
      apply vendor_keeps in Hv as [_ ->]. done. }
  intros Hrun Hin. specialize (G _ [] (Forall_nil_2 _) Hrun).
  rewrite Forall_forall in G. by apply (G (uid, dicom')).
Qed.

(** ** Fatal cases *)

(** C7. A record that parses, is not derived and has a new, non-empty Series
    Instance UID but no manufacturer makes the vendor dispatch raise
    ([strip] is called on [None]); the record is not skipped and the run
    ends with the exception. *)
Theorem missing_manufacturer_fatal
    (top : dir) (before after : list (dir * file)) (root : dir) (f : file)
    (h : headers) (dicom : Dataset) (uid : string) :
  traversal top = before ++ (root, f) :: after →
  run [] before = Ok h →
  dcmread f = Ok dicom →
  py_in "DERIVED" (getattr dicom "ImageType") = Ok false →
  SeriesInstanceUID dicom = Some uid →
  uid ≠ "" →
  has_key uid h = false →
  getattr dicom "Manufacturer" = None →
  vendor_correction root dicom = Raise AttributeError
  ∧ process_file root h f = Raise AttributeError
  ∧ process_directory top = Raise AttributeError.
Proof.
  intros Ht Hb Hr Hd Hu Hne Hk Hm.
  assert (Hv : vendor_correction root dicom = Raise AttributeError).
  { apply vendor_no_strip. intros m. by rewrite Hm. }
  assert (Hf : process_file root h f = Raise AttributeError).
  { by rewrite (process_file_accept _ _ _ _ _ Hr Hd Hu Hne Hk), Hv. }
  split_and!; [done | done |]. by apply (run_raises _ _ _ _ _ _ _ Ht Hb).
Qed.

(** C10. A record that parses but has no image type makes the membership
    test raise ([in] applied to [None]); the run ends there, before the
    record is filtered, corrected or stored. *)
Theorem missing_image_type_fatal
    (top : dir) (before after : list (dir * file)) (root : dir) (f : file)
    (h : headers) (dicom : Dataset) :
  traversal top = before ++ (root, f) :: after →
  run [] before = Ok h →
  dcmread f = Ok dicom →
  getattr dicom "ImageType" = None →
  py_in "DERIVED" (getattr dicom "ImageType") = Raise TypeError
  ∧ process_file root h f = Raise TypeError
  ∧ process_directory top = Raise TypeError.
Proof.
  intros Ht Hb Hr Hi.
  assert (Hp : py_in "DERIVED" (getattr dicom "ImageType") = Raise TypeError)
    by (by rewrite Hi).
  assert (Hf : process_file root h f = Raise TypeError).
  { by rewrite (process_file_parsed _ _ _ _ Hr), Hp. }
  split_and!; [done | done |]. by apply (run_raises _ _ _ _ _ _ _ Ht Hb).
Qed.

(** ** Other vendors *)

(** C8. A record whose trimmed manufacturer contains neither [Morita] nor
    [Planmeca] is not changed by the vendor dispatch, and is stored in the
    dictionary as it was parsed. *)
Theorem other_vendor_unchanged
    (root : dir) (h : headers) (f : file) (dicom : Dataset) (uid m : string) :
  dcmread f = Ok dicom →
  py_in "DERIVED" (getattr dicom "ImageType") = Ok false →
  SeriesInstanceUID dicom = Some uid →
  uid ≠ "" →
  has_key uid h = false →
  getattr dicom "Manufacturer" = Some (VStr m) →
  contains "Morita" (strip m) = false →
  contains "Planmeca" (strip m) = false →
  vendor_correction root dicom = Ok dicom
  ∧ process_file root h f = Ok (h ++ [(uid, dicom)]).
Proof.
  intros Hr Hd Hu Hne Hk Hm HM HP.
  assert (Hv : vendor_correction root dicom = Ok dicom)
    by (by apply (vendor_other _ _ m)).
  split; [done |].
  by rewrite (process_file_accept _ _ _ _ _ Hr Hd Hu Hne Hk), Hv.
Qed.

(** ** The Morita correction *)

Lemma append_length (a b : string) :
  String.length (a +:+ b) = (String.length a + String.length b)%nat.
Proof. induction a as [|x a IH]; simpl; [done | by rewrite IH]. Qed.

Lemma append_cancel_r (a b c : string) : a +:+ c = b +:+ c → a = b.
Proof.
  revert b. induction a as [|x a IH]; intros [|y b]; simpl; try done.
  - intros H. apply (f_equal String.length) in H. simpl in H.
    rewrite append_length in H. lia.
  - intros H. apply (f_equal String.length) in H. simpl in H.
    rewrite append_length in H. lia.
  - intros [= -> H]. by rewrite (IH _ H).
Qed.

Lemma dap_token_inj (ds ds' : string) : dap_token ds = dap_token ds' → ds = ds'.
Proof.
  unfold dap_token. simpl. intros [= H]. by apply append_cancel_r in H.
Qed.

(** The first dose token is what [re.search] finds. *)
Lemma first_dap_search (c ds : string) :
  first_dap c ds ↔ Re.search Re.dap c = Some (dap_token ds).
Proof.
  split; [apply search_dap_first |].
  intros H. apply search_dap_inv in H as (ds' & E & Hf).
  by rewrite (dap_token_inj _ _ E).
Qed.

(** The Morita branch on a text whose first dose token has digits [ds]. *)
Lemma vendor_morita_first (root : dir) (dicom : Dataset) (m c ds : string) :
  getattr dicom "Manufacturer" = Some (VStr m) →
  contains "Morita" m = true →
  getattr dicom "ImageComments" = Some (VStr c) →
  first_dap c ds →
  vendor_correction root dicom
  = Ok (set_dose dicom (Num.of_Z (decimal ds))).
Proof.
  intros Hm HM Hc Hf. destruct (first_dap_digits _ _ Hf) as [Hd Hne].
  rewrite (vendor_morita _ _ m Hm) by (by rewrite contains_strip_Morita).
  rewrite Hc, (extract_first _ _ Hf), bind_Ok. simpl.
  by rewrite float_of_digits.
Qed.

(** The Morita branch on a text with no dose token: the extraction raises. *)
Lemma vendor_morita_no_token (root : dir) (dicom : Dataset) (m c : string) :
  getattr dicom "Manufacturer" = Some (VStr m) →
  contains "Morita" m = true →
  getattr dicom "ImageComments" = Some (VStr c) →
  (∀ ds, ¬ dap_in c ds) →
  extract_value_from_comments (getattr dicom "ImageComments") Re.dap
  = Raise AttributeError
  ∧ vendor_correction root dicom = Raise AttributeError.
Proof.
  intros Hm HM Hc Hno.
  assert (He : extract_value_from_comments (getattr dicom "ImageComments")
                 Re.dap = Raise AttributeError)
    by (rewrite Hc; by apply extract_no_token).
  split; [done |].
  rewrite (vendor_morita _ _ m Hm) by (by rewrite contains_strip_Morita).
  by rewrite He.
Qed.

(** C2. For a record whose manufacturer contains [Morita] and whose comments
    hold a text [DAP:<digits>mGycm2] (the first such text, [ds] its digits),
    the vendor dispatch returns the record with the dose attribute
    overwritten by the float value of the digits, and the exported dose cell
    is that number. *)
Theorem morita_dose_from_comments
    (root : dir) (dicom : Dataset) (m c ds : string) :
  getattr dicom "Manufacturer" = Some (VStr m) →
  contains "Morita" m = true →
  getattr dicom "ImageComments" = Some (VStr c) →
  first_dap c ds →
  let dose := Num.of_Z (decimal ds) in
  vendor_correction root dicom = Ok (set_dose dicom dose)
  ∧ getattr (set_dose dicom dose) "AcquiredImageAreaDoseProduct"
    = Some (VNum (Num.NFloat dose))
  ∧ ∀ select i,
      select !! i = Some "AcquiredImageAreaDoseProduct" →
      row_of select (set_dose dicom dose) !! i = Some (VNum (Num.NFloat dose)).
Proof.
  intros Hm HM Hc Hf dose. split_and!.
  - by apply (vendor_morita_first _ _ m c).
  - done.
  - intros select i Hi. by rewrite (row_of_lookup _ _ _ _ Hi).
Qed.

(** The example of the specification: [DAP:123mGycm2] gives [123.0], the
    double [123 * 2^46 * 2^-46]. *)
Example morita_example :
  vendor_correction morita_dir morita_header
  = Ok (set_dose morita_header (S754_finite false (123 * 2 ^ 46) (-46))).
Proof. vm_compute. reflexivity. Qed.

(** A text that holds a dose token makes the extraction succeed. *)
Lemma morita_some_token (root : dir) (dicom : Dataset) (m c ds : string) :
  getattr dicom "Manufacturer" = Some (VStr m) →
  contains "Morita" m = true →
  getattr dicom "ImageComments" = Some (VStr c) →
  dap_in c ds →
  ∃ ds0, first_dap c ds0
         ∧ vendor_correction root dicom
           = Ok (set_dose dicom (Num.of_Z (decimal ds0))).
Proof.
  intros Hm HM Hc Hin. destruct (dap_in_first _ _ Hin) as [ds0 Hf].
  exists ds0. split; [done |].
  by apply (vendor_morita_first _ _ m c).
Qed.

(** ** The Planmeca correction *)

(** What the Planmeca branch returns. *)
Lemma vendor_planmeca_result
    (root : dir) (dicom : Dataset) (m : string) (d : Num.number) (x : Num.float) :
  getattr dicom "Manufacturer" = Some (VStr m) →
  contains "Planmeca" m = true →
  contains "Morita" m = false →
  AcquiredImageAreaDoseProduct dicom = Some (Value d) →
  Num.float_of_number d = Ok x →
  vendor_correction root dicom
  = Ok (set_dose (set_images dicom (Z.of_nat (regular_files root)))
                 (Num.mul x (Num.of_Z 100))).
Proof.
  intros Hm HP HM Hd Hx.
  rewrite (vendor_planmeca _ _ m Hm)
    by (by rewrite ?contains_strip_Morita, ?contains_strip_Planmeca).
  rewrite Hd. cbn [float_of_numeric].
  by rewrite Hx, bind_Ok, count_files_spec.
Qed.

(** C3, as amended. For a record whose manufacturer contains [Planmeca] and
    not [Morita], and whose dose attribute is a number, the vendor dispatch
    sets the slice count to the number of regular files below the directory
    of the record's file, counted recursively, and the dose to 100 times its
    float value; every other attribute keeps its value. *)
Theorem planmeca_correction
    (root : dir) (dicom : Dataset) (m : string) (d : Num.number) (x : Num.float) :
  getattr dicom "Manufacturer" = Some (VStr m) →
  contains "Planmeca" m = true →
  contains "Morita" m = false →
  AcquiredImageAreaDoseProduct dicom = Some (Value d) →
  Num.float_of_number d = Ok x →
  ∃ dicom',
    vendor_correction root dicom = Ok dicom'
    ∧ getattr dicom' "ImagesInAcquisition"
      = Some (VNum (Num.NInt (Z.of_nat (regular_files root))))
    ∧ getattr dicom' "AcquiredImageAreaDoseProduct"
      = Some (VNum (Num.NFloat (Num.mul x (Num.of_Z 100))))
    ∧ ∀ name, name ≠ "ImagesInAcquisition" →
              name ≠ "AcquiredImageAreaDoseProduct" →
              getattr dicom' name = getattr dicom name.
Proof.
  intros Hm HP HM Hd Hx. eexists. split_and!.
  - by apply (vendor_planmeca_result _ _ m d x).
  - by rewrite getattr_set_dose_other, getattr_set_images_images.
  - apply getattr_set_dose_dose.
  - intros name H1 H2.
    by rewrite getattr_set_dose_other, getattr_set_images_other.
Qed.

(** The example of the specification: dose 50 and a folder of 120 files give
    dose [5000.0] (the double [5000 * 2^40 * 2^-40]) and slice count 120. *)
Example planmeca_example :
  vendor_correction planmeca_dir planmeca_header
  = Ok (set_dose (set_images planmeca_header 120)
                 (S754_finite false (5000 * 2 ^ 40) (-40))).
Proof. vm_compute. reflexivity. Qed.

(** A manufacturer that contains both names takes the Morita branch. *)
Example both_vendors_take_morita :
  vendor_correction planmeca_dir both_vendors
  = Ok (set_dose both_vendors (Num.of_Z 7)).
Proof. vm_compute. reflexivity. Qed.

(** C3 as stated fails: containing [Planmeca] is not enough. *)
Lemma planmeca_claim_fails :
  ¬ (∀ (root : dir) (dicom : Dataset) (m : string) (d : Num.number)
       (x : Num.float),
       getattr dicom "Manufacturer" = Some (VStr m) →
       contains "Planmeca" m = true →
       AcquiredImageAreaDoseProduct dicom = Some (Value d) →
       Num.float_of_number d = Ok x →
       ∃ dicom',
         vendor_correction root dicom = Ok dicom'
         ∧ getattr dicom' "ImagesInAcquisition"
           = Some (VNum (Num.NInt (Z.of_nat (regular_files root))))
         ∧ getattr dicom' "AcquiredImageAreaDoseProduct"
           = Some (VNum (Num.NFloat (Num.mul x (Num.of_Z 100))))).
Proof.
  intros H.
  destruct (H planmeca_dir both_vendors "Morita (Planmeca import)"
              (Num.NInt 50) (Num.of_Z 50) eq_refl eq_refl eq_refl eq_refl)
    as (dicom' & Hv & Hi & _).
  rewrite both_vendors_take_morita in Hv. injection Hv as <-.
  vm_compute in Hi. discriminate Hi.
Qed.

(** ** Cleaning *)

(** C4, at a text with a semicolon, a line feed and a comma: the semicolon
    stays, the line feed becomes a blank, and the comma becomes a second
    semicolon. *)
Example clean_value_keeps_delimiter :
  let field := "a;b" +:+ String "010"%char "c,d" in
  clean_value (VStr field) = VStr "a;b c;d"
  ∧ count ";" field = 1%nat
  ∧ count ";" "a;b c;d" = 2%nat.
Proof. split_and!; reflexivity. Qed.

(** ** A Morita record without a dose token *)

(** C6, at a Morita record whose comments hold no dose token: the extraction
    does not return [None]; it raises [AttributeError] itself, [float] is
    not reached, and the step raises that exception. *)
Example morita_without_dose_raises :
  extract_value_from_comments (getattr morita_no_dose "ImageComments") Re.dap
  = Raise AttributeError
  ∧ vendor_correction morita_dir morita_no_dose = Raise AttributeError
  ∧ process_file morita_dir [] (a_file "stack3" morita_no_dose)
    = Raise AttributeError.
Proof. split_and!; vm_compute; reflexivity. Qed.

(** ** Missing fields *)

(** C9. For an entry of the dictionary and a selected field that the entry's
    record lacks, the table has a row for the entry, as long as the
    selection, whose cell for the field is the empty string.  The export is a
    total function of the dictionary and the selection. *)
Theorem missing_field_empty_cell
    (hs : headers) (select : list string) (i j : nat) (field uid : string)
    (dicom : Dataset) :
  hs !! j = Some (uid, dicom) →
  select !! i = Some field →
  getattr dicom field = None →
  ∃ row,
    data_rows (dicom_headers_to_csv hs select) !! j = Some row
    ∧ row !! i = Some (VStr "")
    ∧ length row = length select
    ∧ length (data_rows (dicom_headers_to_csv hs select)) = length hs.
Proof.
  intros Hj Hi Hnone. exists (row_of select dicom). split_and!.
  - by apply (data_rows_lookup _ _ _ uid).
  - by rewrite (row_of_lookup _ _ _ _ Hi), Hnone.
  - apply row_of_length.
  - unfold dicom_headers_to_csv. cbn [data_rows]. apply length_map.
Qed.

(** * The properties at the example inputs *)

Example line_break_codes :
  N_of_ascii "010" = 10%N ∧ N_of_ascii "013" = 13%N.
Proof. split; reflexivity. Qed.

Example archive_run : process_directory archive = Ok archive_headers.
Proof. vm_compute. reflexivity. Qed.


(** C2 at [morita_header]. *)
Lemma morita_dose_from_comments_witness :
  first_dap "FOV 60x60 DAP:123mGycm2 rot 360" "123"
  ∧ vendor_correction morita_dir morita_header
    = Ok (set_dose morita_header (Num.of_Z 123)).
Proof.
  assert (Hf : first_dap "FOV 60x60 DAP:123mGycm2 rot 360" "123").
  { apply first_dap_search. vm_compute. reflexivity. }
  split; [exact Hf |].
  destruct (morita_dose_from_comments morita_dir morita_header
              "Morita Accuitomo 170" "FOV 60x60 DAP:123mGycm2 rot 360" "123")
    as (H & _ & _).
  - reflexivity.
  - reflexivity.
  - reflexivity.
  - exact Hf.
  - exact H.
Defined.

(** C3, as amended, at [planmeca_header] in its folder of 120 slices. *)
Lemma planmeca_correction_witness :
  ∃ dicom',
    vendor_correction planmeca_dir planmeca_header = Ok dicom'
    ∧ getattr dicom' "ImagesInAcquisition"
      = Some (VNum (Num.NInt (Z.of_nat (regular_files planmeca_dir))))
    ∧ getattr dicom' "AcquiredImageAreaDoseProduct"
      = Some (VNum (Num.NFloat (Num.mul (Num.of_Z 50) (Num.of_Z 100))))
    ∧ ∀ name, name ≠ "ImagesInAcquisition" →
              name ≠ "AcquiredImageAreaDoseProduct" →
              getattr dicom' name = getattr planmeca_header name.
Proof.
  apply (planmeca_correction planmeca_dir planmeca_header
           "Planmeca ProMax Mid" (Num.NInt 50) (Num.of_Z 50)).
  - reflexivity.
  - reflexivity.
  - reflexivity.
  - reflexivity.
  - reflexivity.
Defined.

(** C5 at [morita_derived]. *)
Lemma derived_record_discarded_witness :
  derived morita_derived
  ∧ (∀ h, process_file morita_dir h (a_file "derived" morita_derived) = Ok h)
  ∧ (∀ h before after,
       run h (before ++ (morita_dir, a_file "derived" morita_derived) :: after)
       = run h (before ++ after)).
Proof.
  assert (Hd : derived morita_derived).
  { exists ["DERIVED"; "SECONDARY"]. split; [reflexivity | by left]. }
  split; [exact Hd |].
  apply (derived_record_discarded morita_dir
           (a_file "derived" morita_derived) morita_derived).
  - reflexivity.
  - exact Hd.
Defined.

(** C7 at [archive_without_manufacturer]. *)
Lemma missing_manufacturer_fatal_witness :
  vendor_correction archive_without_manufacturer no_manufacturer
  = Raise AttributeError
  ∧ process_file archive_without_manufacturer
      [("1.2.752.24.9", sectra_header)] (a_file "anonymous" no_manufacturer)
    = Raise AttributeError
  ∧ process_directory archive_without_manufacturer = Raise AttributeError.
Proof.
  apply (missing_manufacturer_fatal archive_without_manufacturer
           [(archive_without_manufacturer, a_file "sectra" sectra_header)]
           [(archive_without_manufacturer, a_file "stack1" morita_header)]
           archive_without_manufacturer (a_file "anonymous" no_manufacturer)
           [("1.2.752.24.9", sectra_header)] no_manufacturer "1.2.4").
  - reflexivity.
  - vm_compute. reflexivity.
  - reflexivity.
  - reflexivity.
  - reflexivity.
  - discriminate.
  - reflexivity.
  - reflexivity.
Defined.

(** C10 at [archive_without_image_type]. *)
Lemma missing_image_type_fatal_witness :
  py_in "DERIVED" (getattr no_image_type "ImageType") = Raise TypeError
  ∧ process_file archive_without_image_type
      [("1.2.752.24.9", sectra_header)] (a_file "untyped" no_image_type)
    = Raise TypeError
  ∧ process_directory archive_without_image_type = Raise TypeError.
Proof.
  apply (missing_image_type_fatal archive_without_image_type
           [(archive_without_image_type, a_file "sectra" sectra_header)]
           [(archive_without_image_type, a_file "stack1" morita_header)]
           archive_without_image_type (a_file "untyped" no_image_type)
           [("1.2.752.24.9", sectra_header)] no_image_type).
  - reflexivity.
  - vm_compute. reflexivity.
  - reflexivity.
  - reflexivity.
Defined.

(** C8 at [sectra_header]. *)
Lemma other_vendor_unchanged_witness :
  vendor_correction archive sectra_header = Ok sectra_header
  ∧ process_file archive [] (a_file "sectra" sectra_header)
    = Ok ([] ++ [("1.2.752.24.9", sectra_header)]).
Proof.
  apply (other_vendor_unchanged archive [] (a_file "sectra" sectra_header)
           sectra_header "1.2.752.24.9" "Sectra").
  - reflexivity.
  - reflexivity.
  - reflexivity.
  - discriminate.
  - reflexivity.
  - reflexivity.
  - reflexivity.
  - reflexivity.
Defined.

(** C9 at the Morita entry of [archive_headers], which has no [KVP]. *)
Lemma missing_field_empty_cell_witness :
  ∃ row,
    data_rows (dicom_headers_to_csv archive_headers some_columns) !! 1%nat
    = Some row
    ∧ row !! 1%nat = Some (VStr "")
    ∧ length row = length some_columns
    ∧ length (data_rows (dicom_headers_to_csv archive_headers some_columns))
      = length archive_headers.
Proof.
  apply (missing_field_empty_cell archive_headers some_columns 1 1 "KVP"
           "1.2.392.200036.1" (set_dose morita_header (Num.of_Z 123))).
  - reflexivity.
  - reflexivity.
  - reflexivity.
Defined.

(** * More facts about the script *)

Module RunFacts.
Import Str StrFacts ReFacts ScriptFacts ExportFacts.

Lemma has_key_elem uid (h : headers) :
  has_key uid h = true ↔ uid ∈ h.*1.
Proof.
  induction h as [|[u d] h IH].
  - split; [done | by intros ?%elem_of_nil].
  - rewrite has_key_cons, fmap_cons, orb_true_iff, IH, elem_of_cons.
    by rewrite String.eqb_eq.
Qed.

Lemma has_key_not_elem uid (h : headers) :
  has_key uid h = false ↔ uid ∉ h.*1.
Proof.
  rewrite <- has_key_elem. by destruct (has_key uid h).
Qed.

(** What a step that returns has done, read off the file alone. *)
Lemma process_file_stored root (h h1 : headers) (f : file) :
  process_file root h f = Ok h1 →
  match stored_uid f with
  | None => h1 = h
  | Some uid =>
      if has_key uid h then h1 = h
      else ∃ dicom dicom',
             dcmread f = Ok dicom
             ∧ SeriesInstanceUID dicom = Some uid
             ∧ vendor_correction root dicom = Ok dicom'
             ∧ h1 = h ++ [(uid, dicom')]
  end.
Proof.
  unfold stored_uid. destruct (dcmread f) as [dicom|e] eqn:Hr.
  - rewrite (process_file_parsed _ _ _ _ Hr).
    destruct (py_in _ _) as [[]|]; simpl; [by intros [= <-] | | done].
    unfold accept. destruct (SeriesInstanceUID dicom) as [uid|] eqn:Hu;
      [| by intros [= <-]].
    destruct (is_empty uid); simpl; [by intros [= <-] |].
    destruct (has_key uid h); simpl; [by intros [= <-] |].
    intros H. apply bind_inv in H as (dicom' & Hv & [= <-]).
    by exists dicom, dicom'.
  - rewrite (process_file_unread _ _ _ _ Hr).
    destruct e; try done; by intros [= <-].
Qed.

(** A run only appends. *)
Lemma run_extends (l : list (dir * file)) (h hs : headers) :
  run h l = Ok hs → ∃ new, hs = h ++ new.
Proof.
  revert h. induction l as [|[root f] l IH]; intros h.
  - intros [= <-]. exists []. by rewrite app_nil_r.
  - rewrite run_cons. intros H.
    apply bind_inv in H as (h1 & Hstep & Hrun).
    destruct (IH _ Hrun) as [new ->].
    apply process_file_inv in Hstep
      as [-> | (u & d & d' & _ & _ & _ & _ & _ & _ & ->)]; [by exists new |].
    exists ((u, d') :: new). by rewrite <- app_assoc.
Qed.

(** A run that returns has run on every prefix of its files. *)
Lemma run_prefix (l1 l2 : list (dir * file)) (h hs : headers) :
  run h (l1 ++ l2) = Ok hs → ∃ h1, run h l1 = Ok h1 ∧ run h1 l2 = Ok hs.
Proof. rewrite run_app. intros H. by apply bind_inv in H. Qed.

(** The keys after a run, in order. *)
Lemma run_keys (l : list (dir * file)) (h hs : headers) :
  run h l = Ok hs →
  hs.*1 = h.*1 ++ first_seen (h.*1) (stored_uids l).
Proof.
  revert h. induction l as [|[root f] l IH]; intros h.
  - intros [= <-]. simpl. by rewrite app_nil_r.
  - rewrite run_cons. intros H.
    apply bind_inv in H as (h1 & Hstep & Hrun).
    apply process_file_stored in Hstep. rewrite (IH _ Hrun).
    unfold stored_uids. simpl. destruct (stored_uid f) as [uid|].
    + simpl. destruct (has_key uid h) eqn:Hk.
      * subst h1. apply has_key_elem in Hk. by rewrite bool_decide_true.
      * destruct Hstep as (d & d' & _ & _ & _ & ->).
        apply has_key_not_elem in Hk. rewrite bool_decide_false by done.
        rewrite fmap_app. simpl. by rewrite <- app_assoc.
    + by subst h1.
Qed.

Lemma run_invariant (l : list (dir * file)) (h hs : headers) :
  NoDup h.*1 → Forall entry_ok h →
  run h l = Ok hs →
  NoDup hs.*1 ∧ Forall entry_ok hs.
Proof.
  revert h. induction l as [|[root f] l IH]; intros h Hnd Hall.
  - by intros [= <-].
  - rewrite run_cons. intros H.
    apply bind_inv in H as (h1 & Hstep & Hrun).
    apply (IH h1); [| | done];
      apply process_file_inv in Hstep
        as [-> | (u & d & d' & _ & Hd & Hu & Hne & Hk & Hv & ->)];
      try done.
    + rewrite fmap_app. apply NoDup_app. split_and!; [done | | ].
      * intros x Hx ->%list_elem_of_singleton. by apply has_key_not_elem in Hk.
      * apply NoDup_singleton.
    + apply Forall_app. split; [done |]. constructor; [| done].
      apply vendor_keeps in Hv as [Hu' Hi]. unfold entry_ok. simpl.
      by rewrite Hu', Hi.
Qed.

(** The exceptions of the extraction. *)
Lemma extract_errors (comments : option value) (p : Re.pattern) e :
  extract_value_from_comments comments p = Raise e →
  e = TypeError ∨ e = AttributeError.
Proof.
  destruct comments as [[c| | |]|]; simpl; try (intros [= <-]; by left).
  destruct (Re.search p c) as [g|]; [| intros [= <-]; by right].
  by destruct (Re.search Re.number g).
Qed.

(** Cleaning, character by character. *)
Lemma clean_value_length (s t : string) :
  clean_value (VStr s) = VStr t → String.length t = String.length s.
Proof.
  simpl. intros [= <-]. induction s as [|c s IH]; simpl; [done |].
  by rewrite IH.
Qed.

Lemma clean_value_no_comma (s t : string) :
  clean_value (VStr s) = VStr t → count "," t = 0%nat.
Proof.
  simpl. intros [= <-]. induction s as [|c s IH]; simpl; [done |].
  rewrite IH.
  destruct (Ascii.eqb_spec c "010") as [->|]; [done |].
  destruct (Ascii.eqb_spec c "013") as [->|]; [done |].
  destruct (Ascii.eqb_spec c ",") as [->|]; [done |].
  by destruct (Ascii.eqb_spec c ",").
Qed.

Lemma replace_absent (a b : ascii) (s : string) :
  count a s = 0%nat → replace a b s = s.
Proof.
  induction s as [|c s IH]; simpl; [done |].
  destruct (Ascii.eqb c a); [done |]. intros H. by rewrite IH.
Qed.

End RunFacts.

(** * More properties of the script *)

Import RunFacts.

(** ** Files that are skipped, files that end the run *)

(** X1. A file that [dcmread] rejects with [InvalidDicomError] is not a
    DICOM file for [is_dicom_file]; the step leaves the dictionary as it is,
    and a run gives what it gives without the file. *)
Theorem not_dicom_file_skipped (root : dir) (f : file) :
  dcmread f = Raise InvalidDicomError →
  is_dicom_file f = Ok false
  ∧ (∀ h, process_file root h f = Ok h)
  ∧ (∀ h before after,
       run h (before ++ (root, f) :: after) = run h (before ++ after)).
Proof.
  intros Hr.
  assert (Hstep : ∀ h, process_file root h f = Ok h)
    by (intros h; by rewrite (process_file_unread _ _ _ _ Hr)).
  split_and!; [unfold is_dicom_file; by rewrite Hr | done |].
  intros h before after. rewrite !run_app.
  destruct (run h before) as [h'|e]; [| done].
  by rewrite !bind_Ok, run_cons, Hstep.
Qed.

(** X2. Any other exception of [dcmread] is not caught by [is_dicom_file]:
    it ends the run of [process_directory], whatever files follow. *)
Theorem read_error_fatal
    (top : dir) (before after : list (dir * file)) (root : dir) (f : file)
    (h : headers) (e : exn) :
  traversal top = before ++ (root, f) :: after →
  run [] before = Ok h →
  dcmread f = Raise e →
  e ≠ InvalidDicomError →
  is_dicom_file f = Raise e
  ∧ process_file root h f = Raise e
  ∧ process_directory top = Raise e.
Proof.
  intros Ht Hb Hr He.
  assert (Hf : process_file root h f = Raise e).
  { rewrite (process_file_unread _ _ _ _ Hr). by destruct e. }
  split_and!; [| done | by apply (run_raises _ _ _ _ _ _ _ Ht Hb)].
  unfold is_dicom_file. rewrite Hr. by destruct e.
Qed.

(** X3. A record that is not derived and has no Series Instance UID, or an
    empty one, is skipped before the vendor dispatch: the step returns the
    dictionary as it is whatever the other attributes are, and a run gives
    what it gives without the file. *)
Theorem record_without_uid_skipped (root : dir) (f : file) (dicom : Dataset) :
  dcmread f = Ok dicom →
  py_in "DERIVED" (getattr dicom "ImageType") = Ok false →
  SeriesInstanceUID dicom = None ∨ SeriesInstanceUID dicom = Some "" →
  (∀ h, process_file root h f = Ok h)
  ∧ (∀ h before after,
       run h (before ++ (root, f) :: after) = run h (before ++ after)).
Proof.
  intros Hr Hd Hu.
  assert (Hstep : ∀ h, process_file root h f = Ok h).
  { intros h. rewrite (process_file_parsed _ _ _ _ Hr), Hd. simpl.
    unfold accept. by destruct Hu as [-> | ->]. }
  split; [done |]. intros h before after. rewrite !run_app.
  destruct (run h before) as [h'|e]; [| done].
  by rewrite !bind_Ok, run_cons, Hstep.
Qed.

(** X4. A record whose Series Instance UID is already a key of the
    dictionary is skipped before the vendor dispatch: the dictionary is
    returned as it is, also for a record on which the dispatch would raise. *)
Theorem duplicate_skipped_before_dispatch
    (root : dir) (h : headers) (f : file) (dicom : Dataset) (uid : string) :
  dcmread f = Ok dicom →
  py_in "DERIVED" (getattr dicom "ImageType") = Ok false →
  SeriesInstanceUID dicom = Some uid →
  has_key uid h = true →
  process_file root h f = Ok h.
Proof.
  intros Hr Hd Hu Hk. rewrite (process_file_parsed _ _ _ _ Hr), Hd. simpl.
  unfold accept. by rewrite Hu, Hk, andb_false_r.
Qed.

(** ** The dictionary that is returned *)

(** X5. In the dictionary [process_directory] returns, no key occurs twice,
    no key is empty, every key is the Series Instance UID of its header, and
    no header is derived. *)
Theorem dictionary_invariant (top : dir) (hs : headers) :
  process_directory top = Ok hs →
  NoDup hs.*1 ∧ Forall entry_ok hs.
Proof.
  rewrite process_directory_run.
  apply run_invariant; [apply NoDup_nil_2 | apply Forall_nil_2].
Qed.

(** X6. The keys of the dictionary [process_directory] returns are the
    identifiers of the records that qualify, each once, in the order in
    which the traversal first meets them. *)
Theorem keys_in_first_seen_order (top : dir) (hs : headers) :
  process_directory top = Ok hs →
  hs.*1 = first_seen [] (stored_uids (traversal top)).
Proof.
  rewrite process_directory_run. intros H. by rewrite (run_keys _ _ _ H).
Qed.

(** X7. What the files of a prefix of the traversal have put in the
    dictionary stays: the dictionary returned at the end begins with the
    dictionary after the prefix, entry for entry. *)
Theorem stored_entries_are_kept
    (top : dir) (l1 l2 : list (dir * file)) (hs : headers) :
  traversal top = l1 ++ l2 →
  process_directory top = Ok hs →
  ∃ h new, run [] l1 = Ok h ∧ hs = h ++ new.
Proof.
  intros Ht. rewrite process_directory_run, Ht. intros H.
  apply run_prefix in H as (h & H1 & H2).
  destruct (run_extends _ _ _ H2) as [new ->]. by exists h, new.
Qed.

(** ** The vendor dispatch *)

(** X8. The vendor dispatch raises [AttributeError], [TypeError] or
    [OverflowError] and nothing else: [float] never rejects what the
    extraction hands it, so there is no [ValueError]. *)
Theorem vendor_correction_exceptions (root : dir) (dicom : Dataset) (e : exn) :
  vendor_correction root dicom = Raise e →
  e = TypeError ∨ e = AttributeError ∨ e = OverflowError.
Proof.
  unfold vendor_correction.
  destruct (py_strip (getattr dicom "Manufacturer")) as [m|e0] eqn:Hm.
  - simpl. destruct (contains "Morita" m).
    + destruct (extract_value_from_comments _ _) as [r|e1] eqn:He; simpl.
      * destruct r as [g|]; [| by destruct (extract_never_None _ He)].
        destruct (extract_numeral _ _ _ He) as [x Hx]. by rewrite Hx.
      * intros [= <-]. destruct (extract_errors _ _ _ He) as [-> | ->]; auto.
    + destruct (contains "Planmeca" m); [| done]. simpl.
      destruct (AcquiredImageAreaDoseProduct dicom) as [[|[n|x]]|];
        [intros [= <-]; auto | | done | intros [= <-]; auto].
      simpl. destruct (Num.of_Z n); simpl; try done. intros [= <-]. auto.
  - simpl. intros [= <-].
    unfold py_strip in Hm.
    destruct (getattr dicom "Manufacturer") as [[]|];
      try discriminate Hm; injection Hm as <-; auto.
Qed.

(** X9. The vendor dispatch changes no attribute but the dose and the slice
    count; the Series Instance UID in particular is kept. *)
Theorem vendor_correction_frame (root : dir) (dicom dicom' : Dataset) :
  vendor_correction root dicom = Ok dicom' →
  SeriesInstanceUID dicom' = SeriesInstanceUID dicom
  ∧ ∀ name, name ≠ "AcquiredImageAreaDoseProduct" →
            name ≠ "ImagesInAcquisition" →
            getattr dicom' name = getattr dicom name.
Proof.
  intros H. split; [by apply vendor_keeps in H as [? _] |].
  intros name H1 H2. by apply (vendor_frame root).
Qed.

(** X10. A Planmeca record without a dose makes the dispatch raise, after
    the slice count has been set, and the run ends with the exception:
    [AttributeError] when the record has no dose element at all (the
    attribute access of line 73 fails), [TypeError] when the element is
    present with no value ([float(None)]). *)
Theorem planmeca_without_dose_fatal
    (top : dir) (before after : list (dir * file)) (root : dir) (f : file)
    (h : headers) (dicom : Dataset) (uid m : string) (e : exn) :
  traversal top = before ++ (root, f) :: after →
  run [] before = Ok h →
  dcmread f = Ok dicom →
  py_in "DERIVED" (getattr dicom "ImageType") = Ok false →
  SeriesInstanceUID dicom = Some uid →
  uid ≠ "" →
  has_key uid h = false →
  getattr dicom "Manufacturer" = Some (VStr m) →
  contains "Planmeca" m = true →
  contains "Morita" m = false →
  (AcquiredImageAreaDoseProduct dicom = None ∧ e = AttributeError)
  ∨ (AcquiredImageAreaDoseProduct dicom = Some NoValue ∧ e = TypeError) →
  vendor_correction root dicom = Raise e
  ∧ process_directory top = Raise e.
Proof.
  intros Ht Hb Hr Hd Hu Hne Hk Hm HP HM Hdose.
  assert (Hv : vendor_correction root dicom = Raise e).
  { rewrite (vendor_planmeca _ _ m Hm)
      by (by rewrite ?contains_strip_Morita, ?contains_strip_Planmeca).
    by destruct Hdose as [[-> ->] | [-> ->]]. }
  split; [done |]. apply (run_raises _ _ _ _ _ _ _ Ht Hb).
  by rewrite (process_file_accept _ _ _ _ _ Hr Hd Hu Hne Hk), Hv.
Qed.

(** X11. A Morita record that has no comments attribute makes the extraction
    raise [TypeError] ([re.search] on [None]); the run ends with the
    exception. *)
Theorem morita_without_comments_fatal
    (top : dir) (before after : list (dir * file)) (root : dir) (f : file)
    (h : headers) (dicom : Dataset) (uid m : string) :
  traversal top = before ++ (root, f) :: after →
  run [] before = Ok h →
  dcmread f = Ok dicom →
  py_in "DERIVED" (getattr dicom "ImageType") = Ok false →
  SeriesInstanceUID dicom = Some uid →
  uid ≠ "" →
  has_key uid h = false →
  getattr dicom "Manufacturer" = Some (VStr m) →
  contains "Morita" m = true →
  getattr dicom "ImageComments" = None →
  extract_value_from_comments (getattr dicom "ImageComments") Re.dap
  = Raise TypeError
  ∧ vendor_correction root dicom = Raise TypeError
  ∧ process_directory top = Raise TypeError.
Proof.
  intros Ht Hb Hr Hd Hu Hne Hk Hm HM Hc.
  assert (He : extract_value_from_comments (getattr dicom "ImageComments")
                 Re.dap = Raise TypeError) by (by rewrite Hc).
  assert (Hv : vendor_correction root dicom = Raise TypeError).
  { rewrite (vendor_morita _ _ m Hm) by (by rewrite contains_strip_Morita).
    by rewrite He. }
  split_and!; [done | done |]. apply (run_raises _ _ _ _ _ _ _ Ht Hb).
  by rewrite (process_file_accept _ _ _ _ _ Hr Hd Hu Hne Hk), Hv.
Qed.

(** X12. Trimming the manufacturer does not change the dispatch: each of the
    two names is in the trimmed text exactly when it is in the text. *)
Theorem strip_does_not_change_dispatch (m : string) :
  contains "Morita" (strip m) = contains "Morita" m
  ∧ contains "Planmeca" (strip m) = contains "Planmeca" m.
Proof. split; [apply contains_strip_Morita | apply contains_strip_Planmeca]. Qed.

Module FloatFacts.
Import Str.

Lemma iter_pos_invariant {A} (P : A → Prop) (f : A → A) :
  (∀ x, P x → P (f x)) → ∀ p x, P x → P (SpecFloat.iter_pos f p x).
Proof. intros Hf. induction p; intros x Hx; simpl; auto. Qed.

Lemma shr_1_nonneg (r : shr_record) : 0 <= shr_m r → 0 <= shr_m (shr_1 r).
Proof.
  destruct r as [m r s]. simpl.
  destruct m as [|[p|p|]|[p|p|]]; simpl; lia.
Qed.

Lemma shr_nonneg (r : shr_record) (e n : Z) :
  0 <= shr_m r → 0 <= shr_m (shr r e n).1.
Proof.
  intros H. destruct n; simpl; try done.
  by apply (iter_pos_invariant (λ r, 0 <= shr_m r)); [apply shr_1_nonneg |].
Qed.

Lemma shr_fexp_nonneg (m e : Z) (l : location) :
  0 <= m → 0 <= shr_m (shr_fexp Num.prec Num.emax m e l).1.
Proof.
  intros H. unfold shr_fexp. apply shr_nonneg. by destruct l as [|[]].
Qed.

Lemma round_nearest_even_nonneg (mx : Z) (lx : location) :
  0 <= mx → 0 <= round_nearest_even mx lx.
Proof.
  intros H. destruct lx as [|[]]; simpl; try lia.
  destruct (Z.even mx); lia.
Qed.

Lemma binary_round_aux_nonneg (mx ex : Z) (lx : location) :
  0 <= mx → nonnegative (binary_round_aux Num.prec Num.emax false mx ex lx).
Proof.
  intros H. unfold binary_round_aux.
  pose proof (shr_fexp_nonneg mx ex lx H) as H1.
  destruct (shr_fexp Num.prec Num.emax mx ex lx) as [r1 e1]. simpl in H1.
  pose proof (shr_fexp_nonneg _ e1 loc_Exact
                (round_nearest_even_nonneg _ (loc_of_shr_record r1) H1)) as H2.
  destruct (shr_fexp Num.prec Num.emax _ e1 loc_Exact) as [r2 e2].
  simpl in H2. destruct (shr_m r2); simpl; [done | | lia].
  by destruct (_ <=? _).
Qed.

(** The double nearest to an integer that is not negative is not negative. *)
Lemma of_Z_nonneg (n : Z) : 0 <= n → nonnegative (Num.of_Z n).
Proof.
  intros H. unfold Num.of_Z, binary_normalize. destruct n; [done | | lia].
  unfold binary_round. destruct (shl_align _ _ _) as [mz ez].
  by apply binary_round_aux_nonneg.
Qed.

Lemma digit_val_nonneg c : is_digit c = true → 0 <= digit_val c.
Proof.
  unfold is_digit, digit_val. intros [H _]%andb_true_iff.
  apply N.leb_le in H. lia.
Qed.

Lemma decimal_acc_nonneg (s : string) (acc : Z) :
  0 <= acc → all_digits s = true → 0 <= decimal_acc acc s.
Proof.
  revert acc. induction s as [|c s IH]; intros acc Hacc; simpl; [done |].
  intros [Hc Hs]%andb_true_iff. apply IH; [| done].
  pose proof (digit_val_nonneg c Hc). lia.
Qed.

Lemma decimal_nonneg (s : string) : all_digits s = true → 0 <= decimal s.
Proof. by apply decimal_acc_nonneg. Qed.

End FloatFacts.

Module ExtractFacts.
Import Str StrFacts ReFacts ScriptFacts.

(** What the extraction has found when it returns with the dose pattern. *)
Lemma extract_dap_inv (comments : option value) (r : option string) :
  extract_value_from_comments comments Re.dap = Ok r →
  ∃ c ds, comments = Some (VStr c) ∧ r = Some ds ∧ first_dap c ds.
Proof.
  destruct comments as [[c| | |]|]; simpl; try done.
  destruct (Re.search Re.dap c) as [g|] eqn:E; [| done].
  apply search_dap_inv in E as (ds & -> & Hf).
  destruct (first_dap_digits _ _ Hf) as [Hd Hne].
  rewrite search_number_token by done. intros [= <-]. by exists c, ds.
Qed.

Lemma extract_raise_inv (c : string) e :
  extract_value_from_comments (Some (VStr c)) Re.dap = Raise e →
  Re.search Re.dap c = None.
Proof.
  simpl. destruct (Re.search Re.dap c) as [g|]; [| done].
  by destruct (Re.search Re.number g).
Qed.

End ExtractFacts.

Import FloatFacts ExtractFacts.

(** X13. The dose the Morita branch stores is a float that is neither a NaN
    nor negative: a zero, a positive finite double, or plus infinity for a
    run of digits too long for a double. *)
Theorem morita_dose_nonnegative
    (root : dir) (dicom dicom' : Dataset) (m : string) :
  getattr dicom "Manufacturer" = Some (VStr m) →
  contains "Morita" m = true →
  vendor_correction root dicom = Ok dicom' →
  ∃ x, AcquiredImageAreaDoseProduct dicom' = Some (Value (Num.NFloat x))
       ∧ nonnegative x.
Proof.
  intros Hm HM.
  rewrite (vendor_morita _ _ m Hm) by (by rewrite contains_strip_Morita).
  intros H. apply bind_inv in H as (r & He & H).
  apply bind_inv in H as (x & Hx & [= <-]).
  apply extract_dap_inv in He as (c & ds & _ & -> & Hf).
  destruct (first_dap_digits _ _ Hf) as [Hd Hne].
  simpl in Hx. rewrite float_of_digits in Hx by done. injection Hx as <-.
  eexists. split; [done |]. by apply of_Z_nonneg, decimal_nonneg.
Qed.

(** ** The extraction *)

(** X14. With the dose pattern, [extract_value_from_comments] returns exactly
    when the comments hold a dose token, and then it returns the digits of
    the first one, never [None]; it raises [AttributeError] exactly when the
    comments hold no dose token. *)
Theorem extraction_finds_first_token (c : string) :
  (∀ r, extract_value_from_comments (Some (VStr c)) Re.dap = Ok r
        ↔ ∃ ds, r = Some ds ∧ first_dap c ds)
  ∧ (extract_value_from_comments (Some (VStr c)) Re.dap = Raise AttributeError
     ↔ ∀ ds, ¬ dap_in c ds).
Proof.
  split.
  - intros r. split.
    + intros H. apply extract_dap_inv in H as (c0 & ds & [= <-] & -> & Hf).
      by exists ds.
    + intros (ds & -> & Hf). by apply extract_first.
  - split.
    + intros H. by apply search_dap_none, (extract_raise_inv _ AttributeError).
    + apply extract_no_token.
Qed.

(** X15. Whatever pattern is passed, a text that
    [extract_value_from_comments] returns is one that [float] reads: the
    conversion that follows the call cannot raise [ValueError]. *)
Theorem extracted_text_is_a_number
    (comments : option value) (p : Re.pattern) (g : string) :
  extract_value_from_comments comments p = Ok (Some g) →
  ∃ x, Num.float_of_optional_string (Some g) = Ok x.
Proof. apply extract_numeral. Qed.

(** ** Counting files *)

(** X16. [count_files] gives 0 for a path that does not exist; for a
    directory it gives the number of its entries that are regular files plus
    the counts of its sub-directories. *)
Theorem count_files_recursive :
  count_files None = 0%nat
  ∧ ∀ fs ds,
      count_files (Some (Dir fs ds))
      = (length (List.filter isfile fs)
         + sum_list (map (λ d, count_files (Some d)) ds))%nat.
Proof.
  split; [done |]. intros fs ds.
  assert (E : map (λ d, count_files (Some d)) ds = map regular_files ds)
    by (apply map_ext; intros d; apply count_files_spec).
  by rewrite count_files_spec, E.
Qed.

(** ** Cleaning and the table *)

(** X17. For a text, [clean_value] returns a text of the same length with no
    line feed, no carriage return and no comma; its semicolons are the
    semicolons and the commas of the input. *)
Theorem clean_value_result (s : string) :
  ∃ t, clean_value (VStr s) = VStr t
       ∧ String.length t = String.length s
       ∧ count "010" t = 0%nat
       ∧ count "013" t = 0%nat
       ∧ count "," t = 0%nat
       ∧ count ";" t = (count ";" s + count "," s)%nat.
Proof.
  eexists. split; [reflexivity |].
  split_and!.
  - by apply clean_value_length.
  - by eapply clean_value_no_line_break.
  - by eapply clean_value_no_line_break.
  - by apply (clean_value_no_comma s).
  - by apply clean_value_semicolons.
Qed.

(** X18. Cleaning twice is cleaning once. *)
Theorem clean_value_idempotent (v : value) :
  clean_value (clean_value v) = clean_value v.
Proof.
  destruct v as [s| | |]; [| done | done | done].
  destruct (clean_value (VStr s)) as [t| | |] eqn:E; try done.
  destruct (clean_value_no_line_break _ _ E) as [Hlf Hcr].
  pose proof (clean_value_no_comma _ _ E) as Hc.
  simpl. by rewrite (replace_absent "010"), (replace_absent "013"),
    (replace_absent ",").
Qed.

(** X19. No text cell of the table holds a line feed, a carriage return or a
    comma, whatever the records hold. *)
Theorem no_line_break_in_table
    (hs : headers) (select : list string) (row : list value) (s : string) :
  row ∈ data_rows (dicom_headers_to_csv hs select) →
  VStr s ∈ row →
  count "010" s = 0%nat ∧ count "013" s = 0%nat ∧ count "," s = 0%nat.
Proof.
  unfold dicom_headers_to_csv. cbn [data_rows].
  intros Hrow Hcell. apply list_elem_of_In, in_map_iff in Hrow as (kv & <- & _).
  unfold row_of in Hcell.
  apply list_elem_of_In, in_map_iff in Hcell as (field & Hc & _).
  destruct (default (VStr "") (getattr kv.2 field)) as [s0| | |];
    [| done | done | done].
  destruct (clean_value_no_line_break _ _ Hc) as [Hlf Hcr].
  by pose proof (clean_value_no_comma _ _ Hc).
Qed.

(** ** The whole script *)

Lemma uid_column (hs : headers) :
  Forall entry_ok hs →
  (λ row : list value, row !! 1%nat)
    <$> map (λ kv, row_of selected_columns kv.2) hs
  = (λ uid, Some (clean_value (VStr uid))) <$> hs.*1.
Proof.
  induction 1 as [|[uid dicom] hs (_ & Hu & _) _ IH]; [done |].
  simpl in Hu. cbn [map]. rewrite !fmap_cons, IH. f_equal.
  rewrite (row_of_lookup _ _ 1 "SeriesInstanceUID") by done.
  unfold getattr. simpl. by rewrite Hu.
Qed.

(** X20. When the script produces a table, its header row is the 19 selected
    columns, every data row has 19 cells, and the second column lists the
    cleaned identifiers of the records that qualify, each once, in the order
    in which the traversal first meets them. *)
Theorem script_table (top : dir) (t : table) :
  script top = Ok t →
  header_row t = selected_columns
  ∧ Forall (λ row, length row = 19%nat) (data_rows t)
  ∧ (λ row : list value, row !! 1%nat) <$> data_rows t
    = (λ uid, Some (clean_value (VStr uid)))
        <$> first_seen [] (stored_uids (traversal top)).
Proof.
  unfold script. intros H. apply bind_inv in H as (hs & Hrun & [= <-]).
  unfold dicom_headers_to_csv. cbn [header_row data_rows].
  split_and!; [done | |].
  - apply Forall_forall. intros row Hrow.
    apply list_elem_of_In, in_map_iff in Hrow as (kv & <- & _).
    apply row_of_length.
  - rewrite process_directory_run in Hrun.
    destruct (run_invariant _ [] _ (NoDup_nil_2) (Forall_nil_2 _) Hrun)
      as [_ Hall].
    by rewrite (uid_column _ Hall), (run_keys _ _ _ Hrun).
Qed.

(** * The further properties at the example inputs *)

(** X1 at the text file of [archive]. *)
Lemma not_dicom_file_skipped_witness :
  is_dicom_file not_dicom = Ok false
  ∧ (∀ h, process_file archive h not_dicom = Ok h)
  ∧ (∀ h before after,
       run h (before ++ (archive, not_dicom) :: after)
       = run h (before ++ after)).
Proof. apply (not_dicom_file_skipped archive not_dicom). reflexivity. Defined.

(** X2 at [archive_unreadable]. *)
Lemma read_error_fatal_witness :
  is_dicom_file unreadable = Raise OSError
  ∧ process_file archive_unreadable [("1.2.752.24.9", sectra_header)]
      unreadable
    = Raise OSError
  ∧ process_directory archive_unreadable = Raise OSError.
Proof.
  apply (read_error_fatal archive_unreadable
           [(archive_unreadable, a_file "sectra" sectra_header)]
           [(archive_unreadable, a_file "stack1" morita_header)]
           archive_unreadable unreadable
           [("1.2.752.24.9", sectra_header)] OSError).
  - reflexivity.
  - vm_compute. reflexivity.
  - reflexivity.
  - discriminate.
Defined.

(** X3 at [no_uid], which has no manufacturer either. *)
Lemma record_without_uid_skipped_witness :
  (∀ h, process_file archive h (a_file "anonymous" no_uid) = Ok h)
  ∧ (∀ h before after,
       run h (before ++ (archive, a_file "anonymous" no_uid) :: after)
       = run h (before ++ after)).
Proof.
  apply (record_without_uid_skipped archive (a_file "anonymous" no_uid) no_uid).
  - reflexivity.
  - reflexivity.
  - left. reflexivity.
Defined.

(** X4 at [sectra_duplicate], on which the dispatch would raise. *)
Lemma duplicate_skipped_before_dispatch_witness :
  vendor_correction archive sectra_duplicate = Raise AttributeError
  ∧ process_file archive [("1.2.752.24.9", sectra_header)]
      (a_file "copy" sectra_duplicate)
    = Ok [("1.2.752.24.9", sectra_header)].
Proof.
  split; [vm_compute; reflexivity |].
  apply (duplicate_skipped_before_dispatch archive
           [("1.2.752.24.9", sectra_header)] (a_file "copy" sectra_duplicate)
           sectra_duplicate "1.2.752.24.9").
  - reflexivity.
  - reflexivity.
  - reflexivity.
  - reflexivity.
Defined.

(** X5 at [archive]. *)
Lemma dictionary_invariant_witness :
  NoDup archive_headers.*1 ∧ Forall entry_ok archive_headers.
Proof.
  apply (dictionary_invariant archive archive_headers).
  vm_compute. reflexivity.
Defined.

(** X6 at [archive]. *)
Lemma keys_in_first_seen_order_witness :
  archive_headers.*1 = first_seen [] (stored_uids (traversal archive)).
Proof.
  apply (keys_in_first_seen_order archive archive_headers).
  vm_compute. reflexivity.
Defined.

(** X7 at [archive], after the two files of its top folder. *)
Lemma stored_entries_are_kept_witness :
  ∃ h new,
    run [] [(archive, not_dicom); (archive, a_file "sectra" sectra_header)]
    = Ok h
    ∧ archive_headers = h ++ new.
Proof.
  apply (stored_entries_are_kept archive
           [(archive, not_dicom); (archive, a_file "sectra" sectra_header)]
           [(morita_dir, a_file "derived" morita_derived);
            (morita_dir, a_file "stack1" morita_header);
            (morita_dir, a_file "stack2" morita_copy);
            (planmeca_pair, a_file "slice1" planmeca_header);
            (planmeca_pair, a_file "slice2" planmeca_header)]
           archive_headers).
  - reflexivity.
  - vm_compute. reflexivity.
Defined.

(** X8 at [morita_no_dose]. *)
Lemma vendor_correction_exceptions_witness :
  vendor_correction morita_dir morita_no_dose = Raise AttributeError
  ∧ (AttributeError = TypeError ∨ AttributeError = AttributeError
     ∨ AttributeError = OverflowError).
Proof.
  split; [vm_compute; reflexivity |].
  apply (vendor_correction_exceptions morita_dir morita_no_dose AttributeError).
  vm_compute. reflexivity.
Defined.

(** X9 at [planmeca_header]. *)
Lemma vendor_correction_frame_witness :
  SeriesInstanceUID (set_dose (set_images planmeca_header 120) (Num.of_Z 5000))
  = SeriesInstanceUID planmeca_header
  ∧ ∀ name, name ≠ "AcquiredImageAreaDoseProduct" →
            name ≠ "ImagesInAcquisition" →
            getattr (set_dose (set_images planmeca_header 120) (Num.of_Z 5000))
              name
            = getattr planmeca_header name.
Proof.
  apply (vendor_correction_frame planmeca_dir planmeca_header).
  vm_compute. reflexivity.
Defined.

(** X10 at [archive_planmeca_no_dose], where the dose element is absent,
    and at [archive_planmeca_empty_dose], where it has no value. *)
Lemma planmeca_without_dose_fatal_witness :
  (vendor_correction archive_planmeca_no_dose planmeca_no_dose
   = Raise AttributeError
   ∧ process_directory archive_planmeca_no_dose = Raise AttributeError)
  ∧ (vendor_correction archive_planmeca_empty_dose planmeca_empty_dose
     = Raise TypeError
     ∧ process_directory archive_planmeca_empty_dose = Raise TypeError).
Proof.
  split.
  - apply (planmeca_without_dose_fatal archive_planmeca_no_dose
             [(archive_planmeca_no_dose, a_file "sectra" sectra_header)] []
             archive_planmeca_no_dose (a_file "slice" planmeca_no_dose)
             [("1.2.752.24.9", sectra_header)] planmeca_no_dose
             "1.2.246.512.8" "Planmeca ProMax Mid" AttributeError).
    + reflexivity.
    + vm_compute. reflexivity.
    + reflexivity.
    + reflexivity.
    + reflexivity.
    + discriminate.
    + reflexivity.
    + reflexivity.
    + reflexivity.
    + reflexivity.
    + left. split; reflexivity.
  - apply (planmeca_without_dose_fatal archive_planmeca_empty_dose
             [(archive_planmeca_empty_dose, a_file "sectra" sectra_header)] []
             archive_planmeca_empty_dose (a_file "slice" planmeca_empty_dose)
             [("1.2.752.24.9", sectra_header)] planmeca_empty_dose
             "1.2.246.512.9" "Planmeca ProMax Mid" TypeError).
    + reflexivity.
    + vm_compute. reflexivity.
    + reflexivity.
    + reflexivity.
    + reflexivity.
    + discriminate.
    + reflexivity.
    + reflexivity.
    + reflexivity.
    + reflexivity.
    + right. split; reflexivity.
Defined.

(** X11 at [archive_morita_no_comments]. *)
Lemma morita_without_comments_fatal_witness :
  extract_value_from_comments (getattr morita_no_comments "ImageComments")
    Re.dap
  = Raise TypeError
  ∧ vendor_correction archive_morita_no_comments morita_no_comments
    = Raise TypeError
  ∧ process_directory archive_morita_no_comments = Raise TypeError.
Proof.
  apply (morita_without_comments_fatal archive_morita_no_comments
           [(archive_morita_no_comments, a_file "sectra" sectra_header)] []
           archive_morita_no_comments (a_file "stack" morita_no_comments)
           [("1.2.752.24.9", sectra_header)] morita_no_comments
           "1.2.392.200036.3" "Morita Accuitomo 170").
  - reflexivity.
  - vm_compute. reflexivity.
  - reflexivity.
  - reflexivity.
  - reflexivity.
  - discriminate.
  - reflexivity.
  - reflexivity.
  - reflexivity.
  - reflexivity.
Defined.

(** X13 at [morita_header]. *)
Lemma morita_dose_nonnegative_witness :
  ∃ x,
    AcquiredImageAreaDoseProduct (set_dose morita_header (Num.of_Z 123))
    = Some (Value (Num.NFloat x))
    ∧ nonnegative x.
Proof.
  apply (morita_dose_nonnegative morita_dir morita_header
           (set_dose morita_header (Num.of_Z 123)) "Morita Accuitomo 170").
  - reflexivity.
  - reflexivity.
  - vm_compute. reflexivity.
Defined.

(** X15 at the comments of [morita_header]. *)
Lemma extracted_text_is_a_number_witness :
  ∃ x, Num.float_of_optional_string (Some "123") = Ok x.
Proof.
  apply (extracted_text_is_a_number (getattr morita_header "ImageComments")
           Re.dap "123").
  vm_compute. reflexivity.
Defined.

(** X19 at [sectra_commented], whose comments hold a line feed and a comma. *)
Lemma no_line_break_in_table_witness :
  count "010" "first second; third" = 0%nat
  ∧ count "013" "first second; third" = 0%nat
  ∧ count "," "first second; third" = 0%nat.
Proof.
  apply (no_line_break_in_table [("1.2.752.24.10", sectra_commented)]
           ["ImageComments"; "KVP"]
           [VStr "first second; third"; VStr ""] "first second; third").
  - vm_compute. left.
  - left.
Defined.

(** X20 at [archive]. *)
Lemma script_table_witness :
  header_row (dicom_headers_to_csv archive_headers selected_columns)
  = selected_columns
  ∧ Forall (λ row, length row = 19%nat)
      (data_rows (dicom_headers_to_csv archive_headers selected_columns))
  ∧ (λ row : list value, row !! 1%nat)
      <$> data_rows (dicom_headers_to_csv archive_headers selected_columns)
    = (λ uid, Some (clean_value (VStr uid)))
        <$> first_seen [] (stored_uids (traversal archive)).
Proof.
  apply (script_table archive
           (dicom_headers_to_csv archive_headers selected_columns)).
  vm_compute. reflexivity.
Defined.
